(** * winservice: a shallow embedding of logfmwk.h and TConsoleService.h

    The development follows the two headers of the repository:
    - [Crt]: the handful of C runtime routines the code leans on
      (bounded copies, printf conversions), with their bounds behaviour;
    - [Log]: [Logger], [LogWriter] and the rollover of [FileLogger];
    - [Svc]: the [TConsoleService] state machine.

    Wide strings are modelled by [string]; a [DWORD], an [int] and a
    [time_t] by [Z].  Calls into the operating system are either recorded
    in a trace (what the program asked for) or read from an environment
    record (what the system answered). *)

From Stdlib Require Import ZArith Lia Bool List Ascii String DecimalString.
From Stdlib Require DecimalZ.
From stdpp Require Import gmap strings list fin_maps.

Local Open Scope string_scope.
Local Open Scope Z_scope.

(* ===================================================================== *)
(** ** C runtime                                                          *)
(* ===================================================================== *)

Module Crt.

(** The secure CRT routines call the invalid-parameter handler when a
    destination is too small; the default handler ends the process. *)
Inductive outcome (A : Type) : Type :=
| Ok (a : A)
| InvalidParameter.
Arguments Ok {A} a.
Arguments InvalidParameter {A}.

Definition bind {A B} (m : outcome A) (k : A -> outcome B) : outcome B :=
  match m with
  | Ok a => k a
  | InvalidParameter => InvalidParameter
  end.

Definition wcslen (s : string) : nat := String.length s.

(** The first [n] characters of [s]. *)
Fixpoint wtake (n : nat) (s : string) : string :=
  match n, s with
  | S n', String c s' => String c (wtake n' s')
  | _, _ => EmptyString
  end.

(** [wcscpy_s(dest, cap, src)]: the copy with its terminating null must
    fit in [cap] elements, otherwise the handler runs. *)
Definition wcscpy_s (cap : nat) (src : string) : outcome string :=
  if (wcslen src <? cap)%nat then Ok src else InvalidParameter.


(** [swprintf_s(dest, cap, ...)] where [text] is the full rendering. *)
Definition swprintf_s (cap : nat) (text : string) : outcome string :=
  if (wcslen text <? cap)%nat then Ok text else InvalidParameter.

(** [_vsnprintf_s(dest, sizeOfBuffer, _TRUNCATE, ...)]: as much of the
    rendering as fits while leaving room for the terminating null. *)
Definition vsnprintf_s_TRUNCATE (sizeOfBuffer : nat) (text : string) : string :=
  wtake (sizeOfBuffer - 1) text.

(** A 32-bit value read as a signed [int]. *)
Definition int32 (z : Z) : Z := (z + 2 ^ 31) mod 2 ^ 32 - 2 ^ 31.

(** [%d] *)
Definition dec (z : Z) : string := NilEmpty.string_of_int (Z.to_int z).

Fixpoint fill (c : ascii) (n : nat) : string :=
  match n with
  | O => EmptyString
  | S n' => String c (fill c n')
  end.

Definition pad_left (c : ascii) (w : nat) (s : string) : string :=
  fill c (w - wcslen s) ++ s.

Definition pad_right (c : ascii) (w : nat) (s : string) : string :=
  s ++ fill c (w - wcslen s).

(** [%<w>d]: right-justified in at least [w] columns. *)
Definition fmt_d (w : nat) (z : Z) : string := pad_left " " w (dec z).

(** [%0<w>d]: zero-filled, the sign before the zeros. *)
Definition fmt_0d (w : nat) (z : Z) : string :=
  if z <? 0 then "-" ++ pad_left "0" (w - 1) (dec (- z))
  else pad_left "0" w (dec z).

(** [%-<w>s]: left-justified in at least [w] columns. *)
Definition fmt_ls (w : nat) (s : string) : string := pad_right " " w s.

(** [%c] *)
Definition fmt_c (c : ascii) : string := String c EmptyString.

Definition CRLF : string := String (ascii_of_nat 13) (String (ascii_of_nat 10) EmptyString).

End Crt.

#[export] Instance outcome_ret : MRet Crt.outcome := @Crt.Ok.
#[export] Instance outcome_bind : MBind Crt.outcome :=
  fun A B k m => Crt.bind m k.

(* ===================================================================== *)
(** ** logfmwk.h                                                          *)
(* ===================================================================== *)

Module Log.
Import Crt.

Definition MAX_LOG_MESSAGE_LEN : nat := 4096.
Definition MAX_TAG_LEN : nat := 12.

Definition LOG_LEVEL_ERROR : Z := 10.
Definition LOG_LEVEL_WARNING : Z := 100.
Definition LOG_LEVEL_INFORMATION : Z := 1000.
Definition LOG_LEVEL_DEBUG : Z := 10000.
Definition LOG_LEVEL_VERBOSE : Z := 100000.

(** [struct tm], the fields the code reads.  As the C library fills
    them: [tm_mon] counts months since January (0..11), [tm_year] years
    since 1900. *)
Record tm : Type := mk_tm {
  tm_sec : Z; tm_min : Z; tm_hour : Z;
  tm_mday : Z; tm_mon : Z; tm_year : Z
}.

(** What the system answers during one call into the logger. *)
Record Env : Type := mk_Env {
  now : Z;                 (* ::time(NULL) *)
  lnow : tm;               (* ::localtime_s *)
  zone : Z;                (* ::_get_timezone, seconds west of UTC *)
  tid : Z;                 (* ::GetCurrentThreadId, a DWORD *)
  acp_overflow : string -> string
     (* what ::MultiByteToWideChar leaves in the destination when the
        text does not fit; the code ignores its return value *)
}.

(** What a logger did, oldest first: the critical section and the
    calls of the virtual [actualwrite]. *)
Inductive LogEvent : Type :=
| EvLock
| EvUnlock
| EvActualWrite (msg : string).

Record Logger : Type := mk_Logger {
  lastmsgtime_ : Z;
  level_ : Z;
  events : list LogEvent
}.

(** [Logger::Logger()]; [debug_build] stands for [_DEBUG]. *)
Definition Logger_new (debug_build : bool) : Logger :=
  {| lastmsgtime_ := 0;
     level_ := if debug_build then LOG_LEVEL_DEBUG else LOG_LEVEL_WARNING;
     events := [] |}.

Definition setLevel (level : Z) (l : Logger) : Logger :=
  {| lastmsgtime_ := lastmsgtime_ l; level_ := level; events := events l |}.

Definition getLevel (l : Logger) : Z := level_ l.

Definition emit (ev : LogEvent) (l : Logger) : Logger :=
  {| lastmsgtime_ := lastmsgtime_ l; level_ := level_ l;
     events := events l ++ [ev] |}.

Definition actualwrite (msg : string) (l : Logger) : Logger :=
  emit (EvActualWrite msg) l.

Definition set_lastmsgtime (t : Z) (l : Logger) : Logger :=
  {| lastmsgtime_ := t; level_ := level_ l; events := events l |}.

(** The texts the sink received, in order. *)
Fixpoint sink_of (evs : list LogEvent) : list string :=
  match evs with
  | [] => []
  | EvActualWrite m :: evs' => m :: sink_of evs'
  | _ :: evs' => sink_of evs'
  end.

Definition sink (l : Logger) : list string := sink_of (events l).

Fixpoint lock_count (evs : list LogEvent) : nat :=
  match evs with
  | [] => 0
  | EvLock :: evs' => S (lock_count evs')
  | _ :: evs' => lock_count evs'
  end.

(** [Logger::getTimeStamp] *)
Definition getTimeStamp (e : Env) (nChars : nat) : outcome string :=
  let zonemins := Z.quot (zone e) 60 in
  let zonemins := if zonemins <? 0 then int32 (zonemins * -1) else zonemins in
  swprintf_s nChars
    (fmt_0d 4 (int32 (1900 + tm_year (lnow e))) ++ "/" ++
     fmt_0d 2 (tm_mon (lnow e)) ++ "/" ++
     fmt_0d 2 (tm_mday (lnow e)) ++ " " ++
     fmt_0d 2 (tm_hour (lnow e)) ++ ":" ++
     fmt_0d 2 (tm_min (lnow e)) ++ ":" ++
     fmt_0d 2 (tm_sec (lnow e)) ++ " UTC" ++
     fmt_c (if zone e >=? 0 then "-" else "+")%char ++
     dec zonemins ++ "mins").

(** The record line, ["%-12s %4d %s"]. *)
Definition record_line (tag : string) (thread : Z) (msg : string) : string :=
  fmt_ls 12 tag ++ " " ++ fmt_d 4 (int32 thread) ++ " " ++ msg.

(** [Logger::writecomposed] *)
Definition writecomposed (e : Env) (level : Z) (tag msg : string)
    (l : Logger) : outcome Logger :=
  if level >? getLevel l then Ok l
  else
    let l := emit EvLock l in
    l ← (if negb (now e =? lastmsgtime_ l) then
           (szTime ← getTimeStamp e 64;
            Ok (set_lastmsgtime (now e)
                  (actualwrite CRLF (actualwrite szTime l))))
         else Ok l);
    finalmsg ← swprintf_s (MAX_LOG_MESSAGE_LEN + MAX_TAG_LEN + 7)
                 (record_line tag (tid e) msg);
    Ok (emit EvUnlock (actualwrite finalmsg l)).

(** [::MultiByteToWideChar(CP_THREAD_ACP, MB_PRECOMPOSED, msg,
    strlen(msg), dest, cch)] on single-byte text. *)
Definition MultiByteToWideChar (e : Env) (msg : string) (cch : nat) : string :=
  if (wcslen msg <=? cch)%nat then msg else acp_overflow e msg.

(** [Logger::write], the overload taking a narrow message. *)
Definition write_A (e : Env) (level : Z) (tag msg : string)
    (l : Logger) : outcome Logger :=
  let szMsg := MultiByteToWideChar e msg (MAX_LOG_MESSAGE_LEN + 1 - 1) in
  writecomposed e level tag szMsg l.

(** [Logger::write], the overload taking a wide message. *)
Definition write_W (e : Env) (level : Z) (tag msg : string)
    (l : Logger) : outcome Logger :=
  writecomposed e level tag msg l.

(** *** LogWriter *)

(** [logger_] is a reference to a logger shared with every other writer:
    the logger is not a field here, each call takes it and hands it
    back. *)
Record LogWriter : Type := mk_LogWriter { szTag_ : string }.

(** [LogWriter::LogWriter]: [wcscpy_s] into [wchar_t szTag_[MAX_TAG_LEN+1]]. *)
Definition LogWriter_new (lpszTag : string) : outcome LogWriter :=
  tag ← wcscpy_s (MAX_TAG_LEN + 1) lpszTag;
  Ok {| szTag_ := tag |}.

Section Rendering.
(** The CRT's expansion of a format against its arguments, before any
    bound is applied. *)
Context {Args : Type}.
Variable render : string -> Args -> string.

(** The content of [szMsg[MAX_LOG_MESSAGE_LEN]] after the bounded
    [_vsnprintf_s] / [_vsnwprintf_s] of [_write]. *)
Definition szMsg_of (format : string) (args : Args) : string :=
  vsnprintf_s_TRUNCATE (MAX_LOG_MESSAGE_LEN - 1) (render format args).

(** [LogWriter::_write], narrow format. *)
Definition _write_A (w : LogWriter) (e : Env) (level : Z)
    (format : string) (args : Args) (l : Logger) : outcome Logger :=
  write_A e level (szTag_ w) (szMsg_of format args) l.

(** [LogWriter::_write], wide format. *)
Definition _write_W (w : LogWriter) (e : Env) (level : Z)
    (format : string) (args : Args) (l : Logger) : outcome Logger :=
  write_W e level (szTag_ w) (szMsg_of format args) l.
End Rendering.

(** *** FileLogger: rollover *)

Definition MAX_PATH : nat := 260.

(** A file system as the rollover sees it: which names exist, with what
    content, and the [_wrename] calls made so far (source, destination,
    whether the call succeeded), oldest first. *)
Record Fs : Type := mk_Fs {
  files : gmap string string;
  renames : list (string * string * bool)
}.

(** [::_waccess(name, 0) != -1] *)
Definition waccess (name : string) (fs : Fs) : bool :=
  bool_decide (is_Some (files fs !! name)).

(** [::_wrename(src, dst)]: fails when [src] is missing or [dst] is
    taken; the code never looks at the result. *)
Definition wrename (src dst : string) (fs : Fs) : Fs :=
  match files fs !! src, files fs !! dst with
  | Some c, None =>
      {| files := <[dst := c]> (delete src (files fs));
         renames := renames fs ++ [(src, dst, true)] |}
  | _, _ =>
      {| files := files fs;
         renames := renames fs ++ [(src, dst, false)] |}
  end.

(** [swprintf_s(buf, L"%s%s_%d%s", szPath, szName, index, szExt)] into a
    buffer of [MAX_PATH] characters. *)
Definition rolled_text (szPath szName szExt : string) (index : Z) : string :=
  szPath ++ szName ++ "_" ++ dec index ++ szExt.

Definition rolled_name (szPath szName szExt : string) (index : Z) : outcome string :=
  swprintf_s MAX_PATH (rolled_text szPath szName szExt index).

(** [FileLogger::backup_rolledfile].  The recursion of the source ends
    at the first free index; [fuel] bounds its depth here, and [None]
    means the bound was reached. *)
Fixpoint backup_rolledfile (fuel : nat) (szPath szName szExt : string)
    (index : Z) (fs : Fs) : option (outcome Fs) :=
  match fuel with
  | O => None
  | S fuel' =>
      match rolled_name szPath szName szExt index with
      | InvalidParameter => Some InvalidParameter
      | Ok szRollFile =>
          match rolled_name szPath szName szExt (int32 (index + 1)) with
          | InvalidParameter => Some InvalidParameter
          | Ok szRollFileBackup =>
              if waccess szRollFile fs then
                if waccess szRollFileBackup fs then
                  match backup_rolledfile fuel' szPath szName szExt
                          (int32 (index + 1)) fs with
                  | Some (Ok fs') => Some (Ok (wrename szRollFile szRollFileBackup fs'))
                  | other => other
                  end
                else Some (Ok (wrename szRollFile szRollFileBackup fs))
              else Some (Ok fs)
          end
      end
  end.

(** [FileLogger::rollover], after [_wsplitpath_s] and the choice of
    [szPath] (the file's own directory, or the current one, closed by a
    backslash): [filename] names the file [szPath ++ szName ++ szExt]. *)
Definition active_name (szPath szName szExt : string) : string :=
  szPath ++ szName ++ szExt.

Definition rollover (fuel : nat) (szPath szName szExt : string)
    (fs : Fs) : option (outcome Fs) :=
  match backup_rolledfile fuel szPath szName szExt 1 fs with
  | Some (Ok fs') =>
      match rolled_name szPath szName szExt 1 with
      | InvalidParameter => Some InvalidParameter
      | Ok szRollFile =>
          Some (Ok (wrename (active_name szPath szName szExt) szRollFile fs'))
      end
  | other => other
  end.

(** The first statement of [FileLogger::FileLogger]: when asked to, and
    when the log file is there, roll it over before opening it. *)
Definition FileLogger_rollup (fRollUp : bool) (fuel : nat)
    (szPath szName szExt : string) (fs : Fs) : option (outcome Fs) :=
  if fRollUp && waccess (active_name szPath szName szExt) fs
  then rollover fuel szPath szName szExt fs
  else Some (Ok fs).

(** *** Observations on a directory *)


(** The name of the rolled file [index] fits its buffer. *)
Definition fits (szPath szName szExt : string) (index : Z) : Prop :=
  (wcslen (rolled_text szPath szName szExt index) < MAX_PATH)%nat.


(** *** Observations on a logger *)

Fixpoint unlock_count (evs : list LogEvent) : nat :=
  match evs with
  | [] => 0
  | EvUnlock :: evs' => S (unlock_count evs')
  | _ :: evs' => unlock_count evs'
  end.

(** The clock answers with calendar values: a year of four digits, the
    fields of [struct tm] in their ranges, a zone within a thousand
    minutes of UTC. *)
Definition calendar (e : Env) : Prop :=
  -1900 <= tm_year (lnow e) <= 8099 /\
  0 <= tm_mon (lnow e) <= 11 /\
  1 <= tm_mday (lnow e) <= 31 /\
  0 <= tm_hour (lnow e) <= 23 /\
  0 <= tm_min (lnow e) <= 59 /\
  0 <= tm_sec (lnow e) <= 60 /\
  -60000 < zone e < 60000.

(** The contents of the files of a directory, each as often as it
    occurs. *)
Definition contents (fs : Fs) : list string := (map_to_list (files fs)).*2.

End Log.

(* ===================================================================== *)
(** ** TConsoleService.h                                                  *)
(* ===================================================================== *)

Module Svc.
Import Crt Log.

(** Values of the Windows SDK headers. *)
Definition SERVICE_STOPPED : Z := 1.
Definition SERVICE_START_PENDING : Z := 2.
Definition SERVICE_STOP_PENDING : Z := 3.
Definition SERVICE_RUNNING : Z := 4.
Definition SERVICE_CONTINUE_PENDING : Z := 5.
Definition SERVICE_PAUSE_PENDING : Z := 6.
Definition SERVICE_PAUSED : Z := 7.

Definition SERVICE_ACCEPT_STOP : Z := 1.
Definition SERVICE_WIN32_OWN_PROCESS : Z := 16.

Definition SERVICE_CONTROL_STOP : Z := 1.
Definition SERVICE_CONTROL_PAUSE : Z := 2.
Definition SERVICE_CONTROL_CONTINUE : Z := 3.
Definition SERVICE_CONTROL_INTERROGATE : Z := 4.
Definition SERVICE_CONTROL_SHUTDOWN : Z := 5.
Definition SERVICE_CONTROL_DEVICEEVENT : Z := 11.
Definition SERVICE_CONTROL_HARDWAREPROFILECHANGE : Z := 12.
Definition SERVICE_CONTROL_POWEREVENT : Z := 13.
Definition SERVICE_CONTROL_SESSIONCHANGE : Z := 14.
Definition SERVICE_CONTROL_PRESHUTDOWN : Z := 15.

Definition CTRL_C_EVENT : Z := 0.
Definition CTRL_BREAK_EVENT : Z := 1.
Definition CTRL_CLOSE_EVENT : Z := 2.
Definition CTRL_LOGOFF_EVENT : Z := 5.
Definition CTRL_SHUTDOWN_EVENT : Z := 6.

Definition NO_ERROR : Z := 0.
Definition S_OK : Z := 0.

Record SERVICE_STATUS : Type := mk_SERVICE_STATUS {
  dwServiceType : Z;
  dwCurrentState : Z;
  dwControlsAccepted : Z;
  dwWin32ExitCode : Z;
  dwServiceSpecificExitCode : Z;
  dwCheckPoint : Z;
  dwWaitHint : Z
}.

(** The calls the service makes into the system, as they are made. *)
Inductive SysCall : Type :=
| CallSetServiceStatus (h : Z) (st : SERVICE_STATUS)
| CallSetEvent
| CallSetConsoleCtrlHandler
| CallPutws (text : string)
| CallRegisterServiceCtrlHandlerEx (name : string)
| CallStartServiceCtrlDispatcher (name : string).

Record Service : Type := mk_Service {
  szServiceName_ : string;
  hServiceStatus_ : Z;          (* 0 is NULL *)
  hEventQuit_ : bool;           (* the manual-reset event: is it signalled *)
  status_ : SERVICE_STATUS;
  fDebugMode_ : bool;
  logger_ : Logger;
  calls : list SysCall          (* oldest first *)
}.

(** What the host answers. *)
Record Host : Type := mk_Host {
  argv : list string;           (* ::CommandLineToArgvW *)
  dispatcher : option Z;        (* ::StartServiceCtrlDispatcherW: [Some e]
                                   when it fails with ::GetLastError() = e,
                                   [None] when it runs the entry sequence
                                   and comes back after it *)
  hRegistered : Z               (* ::RegisterServiceCtrlHandlerEx *)
}.

(** *** Field updates *)

Definition with_status (st : SERVICE_STATUS) (s : Service) : Service :=
  mk_Service (szServiceName_ s) (hServiceStatus_ s) (hEventQuit_ s) st
    (fDebugMode_ s) (logger_ s) (calls s).

Definition with_handle (h : Z) (s : Service) : Service :=
  mk_Service (szServiceName_ s) h (hEventQuit_ s) (status_ s)
    (fDebugMode_ s) (logger_ s) (calls s).

Definition with_debug (b : bool) (s : Service) : Service :=
  mk_Service (szServiceName_ s) (hServiceStatus_ s) (hEventQuit_ s) (status_ s)
    b (logger_ s) (calls s).

Definition with_quit (b : bool) (s : Service) : Service :=
  mk_Service (szServiceName_ s) (hServiceStatus_ s) b (status_ s)
    (fDebugMode_ s) (logger_ s) (calls s).

Definition call (c : SysCall) (s : Service) : Service :=
  mk_Service (szServiceName_ s) (hServiceStatus_ s) (hEventQuit_ s) (status_ s)
    (fDebugMode_ s) (logger_ s) (calls s ++ [c]).

Definition set_dwCurrentState (v : Z) (st : SERVICE_STATUS) : SERVICE_STATUS :=
  mk_SERVICE_STATUS (dwServiceType st) v (dwControlsAccepted st)
    (dwWin32ExitCode st) (dwServiceSpecificExitCode st) (dwCheckPoint st)
    (dwWaitHint st).

Definition set_dwControlsAccepted (v : Z) (st : SERVICE_STATUS) : SERVICE_STATUS :=
  mk_SERVICE_STATUS (dwServiceType st) (dwCurrentState st) v
    (dwWin32ExitCode st) (dwServiceSpecificExitCode st) (dwCheckPoint st)
    (dwWaitHint st).

Definition set_dwWin32ExitCode (v : Z) (st : SERVICE_STATUS) : SERVICE_STATUS :=
  mk_SERVICE_STATUS (dwServiceType st) (dwCurrentState st) (dwControlsAccepted st)
    v (dwServiceSpecificExitCode st) (dwCheckPoint st) (dwWaitHint st).

Definition set_dwCheckPoint (v : Z) (st : SERVICE_STATUS) : SERVICE_STATUS :=
  mk_SERVICE_STATUS (dwServiceType st) (dwCurrentState st) (dwControlsAccepted st)
    (dwWin32ExitCode st) (dwServiceSpecificExitCode st) v (dwWaitHint st).

Definition set_dwWaitHint (v : Z) (st : SERVICE_STATUS) : SERVICE_STATUS :=
  mk_SERVICE_STATUS (dwServiceType st) (dwCurrentState st) (dwControlsAccepted st)
    (dwWin32ExitCode st) (dwServiceSpecificExitCode st) (dwCheckPoint st) v.

(** *** The class *)

(** The constructor: a zeroed status, the name copied into
    [szServiceName_[128]], the quit event created manual-reset and not
    signalled, then the status fields assigned. *)
Definition TConsoleService (lpszServiceName : string) (logger : Logger)
    : outcome Service :=
  name ← wcscpy_s 128 lpszServiceName;
  Ok {| szServiceName_ := name;
        hServiceStatus_ := 0;
        hEventQuit_ := false;
        status_ := {| dwServiceType := SERVICE_WIN32_OWN_PROCESS;
                      dwCurrentState := SERVICE_STOPPED;
                      dwControlsAccepted := 0;
                      dwWin32ExitCode := 0;
                      dwServiceSpecificExitCode := 0;
                      dwCheckPoint := 0;
                      dwWaitHint := 0 |};
        fDebugMode_ := false;
        logger_ := logger;
        calls := [] |}.

Definition isDebugMode (s : Service) : bool := fDebugMode_ s.

(** [setServiceStatus] *)
Definition setServiceStatus (dwState : Z) (s : Service) : Service :=
  let st := set_dwCurrentState dwState (status_ s) in
  let st :=
    if dwState =? SERVICE_START_PENDING
    then set_dwControlsAccepted 0 st
    else set_dwControlsAccepted
           (Z.lor (dwControlsAccepted st) SERVICE_ACCEPT_STOP) st in
  let s := with_status st s in
  if negb (isDebugMode s)
  then call (CallSetServiceStatus (hServiceStatus_ s) (status_ s)) s
  else s.

(** [::SetEvent(hEventQuit_)] *)
Definition SetEvent (s : Service) : Service :=
  call CallSetEvent (with_quit true s).

(** The default handlers. *)
Definition onStop (s : Service) : Service :=
  SetEvent (setServiceStatus SERVICE_STOP_PENDING s).

Definition onPause (s : Service) : Service := s.
Definition onContinue (s : Service) : Service := s.
Definition onInterrogate (s : Service) : Service := s.
Definition onPreShutdown (s : Service) : Z * Service := (NO_ERROR, s).
Definition onShutdown (s : Service) : Service := s.
Definition onDeviceEvent (dwDBT : Z) (s : Service) : Z * Service := (NO_ERROR, s).
Definition onHardwareProfileChange (dwDBT : Z) (s : Service) : Z * Service :=
  (NO_ERROR, s).
Definition onSessionChange (dwEvent : Z) (s : Service) : Z * Service := (NO_ERROR, s).
Definition onPowerEvent (dwEvent : Z) (s : Service) : Z * Service := (NO_ERROR, s).
Definition onUnknownRequest (dwControl : Z) (s : Service) : Service := s.

(** [serviceControlHandlerEx]: the value handed back to the dispatcher
    and the service afterwards. *)
Definition serviceControlHandlerEx (dwControl dwEventType : Z) (s : Service)
    : Z * Service :=
  let dwRet := NO_ERROR in
  if dwControl =? SERVICE_CONTROL_STOP then (dwRet, onStop s)
  else if dwControl =? SERVICE_CONTROL_PAUSE then (dwRet, onPause s)
  else if dwControl =? SERVICE_CONTROL_CONTINUE then (dwRet, onContinue s)
  else if dwControl =? SERVICE_CONTROL_INTERROGATE then (dwRet, onInterrogate s)
  else if dwControl =? SERVICE_CONTROL_PRESHUTDOWN then onPreShutdown s
  else if dwControl =? SERVICE_CONTROL_SHUTDOWN then (dwRet, onShutdown s)
  else if dwControl =? SERVICE_CONTROL_DEVICEEVENT then onDeviceEvent dwEventType s
  else if dwControl =? SERVICE_CONTROL_HARDWAREPROFILECHANGE
    then onHardwareProfileChange dwEventType s
  else if dwControl =? SERVICE_CONTROL_SESSIONCHANGE then onSessionChange dwEventType s
  else if dwControl =? SERVICE_CONTROL_POWEREVENT then onPowerEvent dwEventType s
  else (dwRet, onUnknownRequest dwControl s).

(** [consoleCtrlHandler]: [TRUE] is [true]. *)
Definition consoleCtrlHandler (dwCtrlType : Z) (s : Service) : bool * Service :=
  if (dwCtrlType =? CTRL_C_EVENT)
     || (dwCtrlType =? CTRL_BREAK_EVENT)
     || (dwCtrlType =? CTRL_SHUTDOWN_EVENT)
  then (true, onStop s)
  else (false, s).

(** What reaches the handlers from the other thread while the work body
    is blocked. *)
Inductive Delivery : Type :=
| Control (dwControl dwEventType : Z)
| Console (dwCtrlType : Z).

Definition deliver (d : Delivery) (s : Service) : Service :=
  match d with
  | Control c t => snd (serviceControlHandlerEx c t s)
  | Console c => snd (consoleCtrlHandler c s)
  end.

(** [::WaitForSingleObject(hEventQuit_, INFINITE)]: comes back once the
    event is signalled; [None] when the deliveries run out first, the
    thread then waits for ever. *)
Fixpoint WaitForSingleObject (pending : list Delivery) (s : Service)
    : option Service :=
  if hEventQuit_ s then Some s
  else match pending with
       | [] => None
       | d :: rest => WaitForSingleObject rest (deliver d s)
       end.

(** The default [run]. *)
Definition run (pending : list Delivery) (s : Service) : option (Z * Service) :=
  s ← WaitForSingleObject pending (setServiceStatus SERVICE_RUNNING s);
  Some (0, s).

(** The type of a work body: the default one or an override; [None]
    when it does not return. *)
Definition WorkBody : Type := Service -> option (Z * Service).

(** [serviceMain].  The early [return] of the source sits in the
    service-mode branch, where the handle just obtained is [NULL]. *)
Definition serviceMain (body : WorkBody) (h : Host) (s : Service)
    : option Service :=
  let s := with_status (set_dwCurrentState SERVICE_START_PENDING (status_ s)) s in
  let s :=
    if isDebugMode s then
      call (CallPutws "Press Ctrl+C or Ctrl+Break to quit...")
        (call CallSetConsoleCtrlHandler s)
    else
      with_handle (hRegistered h)
        (call (CallRegisterServiceCtrlHandlerEx (szServiceName_ s)) s) in
  if negb (isDebugMode s) && (hServiceStatus_ s =? 0) then Some s
  else
    let s := setServiceStatus SERVICE_START_PENDING s in
    let s := with_status (set_dwWin32ExitCode S_OK (status_ s)) s in
    let s := with_status (set_dwCheckPoint 0 (status_ s)) s in
    let s := with_status (set_dwWaitHint 0 (status_ s)) s in
    '(ret, s) ← body s;
    let s := with_status (set_dwWin32ExitCode ret (status_ s)) s in
    Some (setServiceStatus SERVICE_STOPPED s).

(** [towlower] on the letters A..Z. *)
Definition towlower (c : ascii) : Z :=
  let n := Z.of_nat (nat_of_ascii c) in
  if (65 <=? n) && (n <=? 90) then n + 32 else n.

(** [_wcsicmp]: zero exactly when the strings agree up to case. *)
Fixpoint _wcsicmp (a b : string) : Z :=
  match a, b with
  | EmptyString, EmptyString => 0
  | EmptyString, String cb _ => 0 - towlower cb
  | String ca _, EmptyString => towlower ca
  | String ca a', String cb b' =>
      if towlower ca =? towlower cb then _wcsicmp a' b'
      else towlower ca - towlower cb
  end.

(** The body of the loop over the arguments in [start]. *)
Definition scan_arg (lpszArg : string) (s : Service) : Service :=
  match lpszArg with
  | String c rest =>
      if (Ascii.eqb c "/" || Ascii.eqb c "-")%char
      then if _wcsicmp rest "debug" =? 0 then with_debug true s else s
      else s
  | EmptyString => s
  end.

(** [start]: the value returned and the service afterwards. *)
Definition start (body : WorkBody) (h : Host) (s : Service)
    : option (Z * Service) :=
  let s := fold_left (fun s a => scan_arg a s) (argv h) s in
  s ← (if fDebugMode_ s then serviceMain body h s
       else
         let s := call (CallStartServiceCtrlDispatcher (szServiceName_ s)) s in
         match dispatcher h with
         | Some err => Some (with_status (set_dwWin32ExitCode err (status_ s)) s)
         | None => serviceMain body h s
         end);
  Some (dwWin32ExitCode (status_ s), s).

(** *** Observations on a run *)

(** How often [::SetEvent] was called. *)
Fixpoint count_SetEvent (cs : list SysCall) : nat :=
  match cs with
  | [] => 0
  | CallSetEvent :: cs' => S (count_SetEvent cs')
  | _ :: cs' => count_SetEvent cs'
  end.

(** How often a status was reported with [::SetServiceStatus]. *)
Fixpoint count_SetServiceStatus (cs : list SysCall) : nat :=
  match cs with
  | [] => 0
  | CallSetServiceStatus _ _ :: cs' => S (count_SetServiceStatus cs')
  | _ :: cs' => count_SetServiceStatus cs'
  end.

(** Is the Stop control among the accepted ones. *)
Definition accepts_stop (st : SERVICE_STATUS) : bool :=
  negb (Z.land (dwControlsAccepted st) SERVICE_ACCEPT_STOP =? 0).

(** What can happen to a constructed controller from outside the entry
    sequence: a call of [setServiceStatus], or a delivery to a handler. *)
Inductive Op : Type :=
| OpSetState (dwState : Z)
| OpDeliver (d : Delivery).

Definition apply_op (o : Op) (s : Service) : Service :=
  match o with
  | OpSetState dwState => setServiceStatus dwState s
  | OpDeliver d => deliver d s
  end.

Definition apply_ops (ops : list Op) (s : Service) : Service :=
  fold_left (fun s o => apply_op o s) ops s.

(** Nothing accepted while the start is pending; Stop accepted in every
    state other than that one and [SERVICE_STOPPED]. *)
Definition controls_invariant (s : Service) : Prop :=
  (dwCurrentState (status_ s) = SERVICE_START_PENDING ->
     dwControlsAccepted (status_ s) = 0) /\
  (dwCurrentState (status_ s) <> SERVICE_START_PENDING ->
   dwCurrentState (status_ s) <> SERVICE_STOPPED ->
     accepts_stop (status_ s) = true).

(** The run mode [start] settles on after reading the arguments. *)
Definition debug_requested (h : Host) (s : Service) : bool :=
  fDebugMode_ (fold_left (fun s a => scan_arg a s) (argv h) s).


(** The deliveries that end in [onStop]. *)
Inductive stop_request : Delivery -> Prop :=
| stop_control (dwEventType : Z) :
    stop_request (Control SERVICE_CONTROL_STOP dwEventType)
| stop_ctrl_c : stop_request (Console CTRL_C_EVENT)
| stop_ctrl_break : stop_request (Console CTRL_BREAK_EVENT)
| stop_ctrl_shutdown : stop_request (Console CTRL_SHUTDOWN_EVENT).

(** The states reported with [::SetServiceStatus], oldest first. *)
Fixpoint reported_states (cs : list SysCall) : list Z :=
  match cs with
  | [] => []
  | CallSetServiceStatus _ st :: cs' => dwCurrentState st :: reported_states cs'
  | _ :: cs' => reported_states cs'
  end.

(** A string with its letters folded to lower case, as [_wcsicmp] sees
    it. *)
Definition fold_case (s : string) : list Z :=
  map towlower (list_ascii_of_string s).

(** A C string holds no null character. *)
Definition c_string (s : string) : Prop :=
  Forall (fun c => c <> "000"%char) (list_ascii_of_string s).

(** The service as [serviceMain] hands it to the work body when the
    handlers are in place. *)
Definition work_entry (h : Host) (s : Service) : Service :=
  let s := with_status (set_dwCurrentState SERVICE_START_PENDING (status_ s)) s in
  let s :=
    if isDebugMode s then
      call (CallPutws "Press Ctrl+C or Ctrl+Break to quit...")
        (call CallSetConsoleCtrlHandler s)
    else
      with_handle (hRegistered h)
        (call (CallRegisterServiceCtrlHandlerEx (szServiceName_ s)) s) in
  let s := setServiceStatus SERVICE_START_PENDING s in
  let s := with_status (set_dwWin32ExitCode S_OK (status_ s)) s in
  let s := with_status (set_dwCheckPoint 0 (status_ s)) s in
  with_status (set_dwWaitHint 0 (status_ s)) s.

(** An operation that ends in [onStop]. *)
Definition stops (o : Op) : Prop :=
  exists d, o = OpDeliver d /\ stop_request d.

(** An argument that is the debug switch: a slash or a dash, then the
    word in any mix of cases. *)
Definition debug_switch (a : string) : Prop :=
  exists c rest,
    a = String c rest /\
    (c = "/" \/ c = "-")%char /\
    fold_case rest = fold_case "debug".

End Svc.

(* ===================================================================== *)
(** ** Sample inputs                                                      *)
(* ===================================================================== *)

Module Samples.
Import Crt Log Svc.

(** 15 January 2024, 10:20:30 local time, five and a half hours east of
    UTC, on thread 4242. *)
Definition january : Env :=
  {| now := 1705314030;
     lnow := {| tm_sec := 30; tm_min := 20; tm_hour := 10;
                tm_mday := 15; tm_mon := 0; tm_year := 124 |};
     zone := -19800;
     tid := 4242;
     acp_overflow := fun s => s |}.

(** A format language of one directive: [%s] is the only argument. *)
Fixpoint render_s (format : string) (arg : string) : string :=
  match format with
  | String "%" (String "s" rest) => arg ++ render_s rest arg
  | String c rest => String c (render_s rest arg)
  | EmptyString => EmptyString
  end.

(** The controller of the service ["demo"], as its constructor leaves it. *)
Definition demo : Service :=
  {| szServiceName_ := "demo";
     hServiceStatus_ := 0;
     hEventQuit_ := false;
     status_ := {| dwServiceType := SERVICE_WIN32_OWN_PROCESS;
                   dwCurrentState := SERVICE_STOPPED;
                   dwControlsAccepted := 0;
                   dwWin32ExitCode := 0;
                   dwServiceSpecificExitCode := 0;
                   dwCheckPoint := 0;
                   dwWaitHint := 0 |};
     fDebugMode_ := false;
     logger_ := setLevel LOG_LEVEL_VERBOSE (Logger_new false);
     calls := [] |}.

(** The same controller in service mode once the work body has reported
    [SERVICE_RUNNING] through the handle 7. *)
Definition demo_running : Service :=
  setServiceStatus SERVICE_RUNNING (with_handle 7 demo).

(** And its twin started with the debug switch. *)
Definition demo_running_debug : Service :=
  setServiceStatus SERVICE_RUNNING (with_debug true demo).

(** Launched by the service manager, the handler registration succeeds. *)
Definition host_service : Host :=
  {| argv := ["demo.exe"]; dispatcher := None; hRegistered := 7 |}.

(** Launched by the service manager, the handler registration fails. *)
Definition host_no_handler : Host :=
  {| argv := ["demo.exe"]; dispatcher := None; hRegistered := 0 |}.

(** Launched from a console: the dispatcher cannot be reached
    (ERROR_FAILED_SERVICE_CONTROLLER_CONNECT). *)
Definition host_no_dispatcher : Host :=
  {| argv := ["demo.exe"]; dispatcher := Some 1063; hRegistered := 0 |}.

(** Launched from a console with the debug switch. *)
Definition host_debug : Host :=
  {| argv := ["demo.exe"; "/Debug"]; dispatcher := Some 1063; hRegistered := 0 |}.

(** A work body of a derived class that hands back 7 without waiting. *)
Definition body_seven : WorkBody := fun s => Some (7, s).

(** A work body that never comes back. *)
Definition body_forever : WorkBody := fun _ => None.

(** A directory with an active log and two rolled files. *)
Definition two_rolled : Fs :=
  {| files := <["C:\logs\demo.log" := "active"]>
                (<["C:\logs\demo_1.log" := "first"]>
                   (<["C:\logs\demo_2.log" := "second"]> ∅));
     renames := [] |}.

(** A directory where the rolled file 2 is missing: the active log, the
    rolled files 1 and 3, and a file of another program. *)
Definition gapped : Fs :=
  {| files := <["C:\logs\demo.log" := "active"]>
                (<["C:\logs\demo_1.log" := "first"]>
                   (<["C:\logs\demo_3.log" := "third"]>
                      (<["C:\logs\other.txt" := "other"]> ∅)));
     renames := [] |}.

End Samples.

Import Crt Log Svc Samples.

(* ===================================================================== *)
(** ** Strings and decimal renderings                                     *)
(* ===================================================================== *)

Section StringFacts.

Lemma wcslen_app (a b : string) :
  wcslen (a ++ b) = (wcslen a + wcslen b)%nat.
Proof.
  unfold wcslen. induction a as [|c a IH]; simpl; [reflexivity|].
  now rewrite IH.
Qed.

Lemma wcslen_wtake (n : nat) (s : string) :
  wcslen (wtake n s) = Nat.min n (wcslen s).
Proof.
  unfold wcslen. revert s.
  induction n as [|n IH]; intros [|c s]; simpl; try reflexivity.
  now rewrite IH.
Qed.

Lemma wtake_all (n : nat) (s : string) :
  (wcslen s <= n)%nat -> wtake n s = s.
Proof.
  unfold wcslen. revert s.
  induction n as [|n IH]; intros [|c s]; simpl; intros Hlen;
    try reflexivity; try lia.
  f_equal. apply IH. lia.
Qed.

(** What [wtake] keeps is the front of the text. *)
Lemma wtake_prefix (n : nat) (s : string) :
  exists rest, s = wtake n s ++ rest.
Proof.
  revert s. induction n as [|n IH]; intros s.
  - exists s. now destruct s.
  - destruct s as [|c s]; [exists EmptyString; reflexivity|].
    destruct (IH s) as [rest Hrest]. exists rest.
    change (String c s = String c (wtake n s ++ rest)). now rewrite <- Hrest.
Qed.

End StringFacts.

(* ===================================================================== *)
(** ** Logger and LogWriter                                               *)
(* ===================================================================== *)

(** C10 -- The [LogWriter] constructor copies the tag with [wcscpy_s]
    into [szTag_], an array of [MAX_TAG_LEN + 1 = 13] elements.  A tag of
    at most 12 characters is stored as it is; for a longer tag the copy
    does not cut the tag short but takes the bounds-failure path (the
    invalid-parameter handler). *)
Theorem LogWriter_new_tag_bound (lpszTag : string) :
  ((wcslen lpszTag <= 12)%nat ->
     LogWriter_new lpszTag = Ok {| szTag_ := lpszTag |}) /\
  ((12 < wcslen lpszTag)%nat ->
     LogWriter_new lpszTag = InvalidParameter).
Proof.
  unfold LogWriter_new, wcscpy_s, MAX_TAG_LEN. split; intros Hlen.
  - destruct (Nat.ltb_spec (wcslen lpszTag) (12 + 1)); [reflexivity | lia].
  - destruct (Nat.ltb_spec (wcslen lpszTag) (12 + 1)); [lia | reflexivity].
Qed.

Lemma LogWriter_new_tag_bound_witness :
  LogWriter_new "service" = Ok {| szTag_ := "service" |} /\
  LogWriter_new "a-tag-too-long" = InvalidParameter.
Proof.
  split.
  - apply (proj1 (LogWriter_new_tag_bound "service")). vm_compute. lia.
  - apply (proj2 (LogWriter_new_tag_bound "a-tag-too-long")). vm_compute. lia.
Defined.

(** C7 -- A call of [Logger::write] whose level is strictly above the
    threshold gives the logger back untouched, for the wide and for the
    narrow overload: no lock event, no call of the sink, the same
    [lastmsgtime_]; and it does so whatever the tag and the message are,
    so nothing was formatted. *)
Theorem write_above_threshold_rejected
    (e : Env) (level : Z) (tag msg : string) (l : Logger) :
  level > getLevel l ->
  write_W e level tag msg l = Ok l /\
  write_A e level tag msg l = Ok l /\
  forall l', (write_W e level tag msg l = Ok l' \/
              write_A e level tag msg l = Ok l') ->
    sink l' = sink l /\
    lock_count (events l') = lock_count (events l) /\
    lastmsgtime_ l' = lastmsgtime_ l.
Proof.
  intros Hlevel.
  assert (Hgt : (level >? getLevel l) = true) by (apply Z.gtb_lt; lia).
  assert (HW : write_W e level tag msg l = Ok l).
  { unfold write_W, writecomposed. now rewrite Hgt. }
  assert (HA : write_A e level tag msg l = Ok l).
  { unfold write_A, writecomposed. now rewrite Hgt. }
  repeat split; try assumption;
    destruct H as [H | H]; rewrite ?HW, ?HA in H; now inversion H.
Qed.

Lemma write_above_threshold_rejected_witness :
  write_W january LOG_LEVEL_DEBUG "service" "started" (Logger_new false)
    = Ok (Logger_new false) /\
  write_A january LOG_LEVEL_DEBUG "service" "started" (Logger_new false)
    = Ok (Logger_new false).
Proof.
  destruct (write_above_threshold_rejected january LOG_LEVEL_DEBUG
              "service" "started" (Logger_new false))
    as (HW & HA & _); [vm_compute; reflexivity|].
  split; assumption.
Defined.

(** The message buffer of [LogWriter::_write] never holds more than the
    array can take, and what it holds is the front of the rendering. *)
Lemma szMsg_of_bounded {Args : Type} (render : string -> Args -> string)
    (format : string) (args : Args) :
  wcslen (szMsg_of render format args)
  = Nat.min (MAX_LOG_MESSAGE_LEN - 2) (wcslen (render format args)).
Proof.
  unfold szMsg_of, vsnprintf_s_TRUNCATE.
  rewrite wcslen_wtake. reflexivity.
Qed.

Lemma MultiByteToWideChar_fits (e : Env) (msg : string) (cch : nat) :
  (wcslen msg <= cch)%nat -> MultiByteToWideChar e msg cch = msg.
Proof.
  intros Hlen. unfold MultiByteToWideChar.
  destruct (Nat.leb_spec (wcslen msg) cch); [reflexivity | lia].
Qed.

(** C8 -- For every format and argument list, [LogWriter::_write] leaves
    in its message buffer of [MAX_LOG_MESSAGE_LEN = 4096] elements the
    rendering cut to its first 4094 characters (the whole rendering when
    it is that short): the text and its terminating null always fit the
    array, the cut is a function of the rendering alone, and the call is
    passed on to the logger with this text, for the narrow and for the
    wide variant alike. *)
Theorem _write_truncates {Args : Type} (render : string -> Args -> string)
    (w : LogWriter) (e : Env) (level : Z) (format : string) (args : Args)
    (l : Logger) :
  let text := render format args in
  let szMsg := szMsg_of render format args in
  (wcslen szMsg + 1 <= MAX_LOG_MESSAGE_LEN)%nat /\
  wcslen szMsg = Nat.min 4094 (wcslen text) /\
  szMsg = wtake 4094 text /\
  (exists rest, text = szMsg ++ rest) /\
  _write_W render w e level format args l
    = writecomposed e level (szTag_ w) szMsg l /\
  _write_A render w e level format args l
    = writecomposed e level (szTag_ w) szMsg l.
Proof.
  intros text szMsg.
  assert (Hlen : wcslen szMsg = Nat.min 4094 (wcslen text))
    by apply szMsg_of_bounded.
  repeat split.
  - rewrite Hlen. unfold MAX_LOG_MESSAGE_LEN. lia.
  - exact Hlen.
  - apply wtake_prefix.
  - unfold _write_A, write_A. fold szMsg.
    rewrite MultiByteToWideChar_fits; [reflexivity|].
    rewrite Hlen. unfold MAX_LOG_MESSAGE_LEN. lia.
Qed.

(** A rendering of 5000 characters: 4094 of them reach the sink, in one
    record line, and the logger reports no failure. *)
Example oversize_write_reaches_sink :
  let w := {| szTag_ := "service" |} in
  let l := Logger_new false in
  exists l',
    _write_W render_s w january LOG_LEVEL_ERROR "%s" (fill "x" 5000) l = Ok l' /\
    sink l' = ["2024/00/15 10:20:30 UTC+330mins"; CRLF;
               record_line "service" 4242 (fill "x" 4094)].
Proof.
  eexists. split; vm_compute; reflexivity.
Qed.

(** The logger behind the writer has a bound of its own: [finalmsg] has
    room for the padded tag, two blanks, the message and six more
    characters, so a thread id of seven digits next to a full message
    buffer makes its [swprintf_s] take the bounds-failure path. *)
Example full_buffer_and_long_thread_id :
  _write_W render_s {| szTag_ := "service" |}
    (mk_Env (now january) (lnow january) (zone january) 1234567 (fun s => s))
    LOG_LEVEL_ERROR "%s" (fill "x" 5000) (Logger_new false)
  = InvalidParameter.
Proof. vm_compute. reflexivity. Qed.

Lemma sink_of_app (a b : list LogEvent) :
  sink_of (a ++ b)%list = (sink_of a ++ sink_of b)%list.
Proof.
  induction a as [|ev a IH]; simpl; [reflexivity|].
  destruct ev; simpl; now rewrite ?IH.
Qed.

(** A write in the second of the previous one adds the record line and
    nothing else. *)
Lemma writecomposed_same_second (e : Env) (level : Z) (tag msg : string)
    (l l' : Logger) :
  level <= getLevel l ->
  now e = lastmsgtime_ l ->
  writecomposed e level tag msg l = Ok l' ->
  sink l' = (sink l ++ [record_line tag (tid e) msg])%list /\
  lastmsgtime_ l' = lastmsgtime_ l.
Proof.
  intros Hlevel Hnow. unfold writecomposed.
  destruct (Z.gtb_spec level (getLevel l)) as [?|_]; [lia|].
  simpl lastmsgtime_. rewrite Hnow, Z.eqb_refl. simpl.
  unfold mbind, outcome_bind, bind; simpl.
  destruct (swprintf_s _ _) as [finalmsg|] eqn:Hfinal; [|discriminate].
  intros [= <-]. unfold swprintf_s in Hfinal.
  destruct (_ <? _)%nat; [|discriminate]. injection Hfinal as <-.
  unfold sink; simpl. rewrite !sink_of_app. simpl.
  now rewrite !app_nil_r.
Qed.

(** A write in a new second first sends the time stamp and a line end
    to the sink, then the record line, and moves the bucket. *)
Lemma writecomposed_new_second (e : Env) (level : Z) (tag msg : string)
    (l l' : Logger) :
  level <= getLevel l ->
  now e <> lastmsgtime_ l ->
  writecomposed e level tag msg l = Ok l' ->
  exists szTime,
    getTimeStamp e 64 = Ok szTime /\
    sink l' = (sink l ++ [szTime; CRLF; record_line tag (tid e) msg])%list /\
    lastmsgtime_ l' = now e.
Proof.
  intros Hlevel Hnow. unfold writecomposed.
  destruct (Z.gtb_spec level (getLevel l)) as [?|_]; [lia|].
  simpl lastmsgtime_.
  destruct (Z.eqb_spec (now e) (lastmsgtime_ l)) as [?|_]; [contradiction|].
  simpl. unfold mbind, outcome_bind, bind; simpl.
  destruct (getTimeStamp e 64) as [szTime|]; [|discriminate].
  destruct (swprintf_s _ _) as [finalmsg|] eqn:Hfinal; [|discriminate].
  intros [= <-]. unfold swprintf_s in Hfinal.
  destruct (_ <? _)%nat; [|discriminate]. injection Hfinal as <-.
  exists szTime. split; [reflexivity|]. split; [|reflexivity].
  unfold sink; simpl. rewrite !sink_of_app. simpl.
  rewrite !app_nil_r, <- !app_assoc. reflexivity.
Qed.

(** C6 -- The header of a write made on 15 January 2024 reads
    [2024/00/15]: [getTimeStamp] prints [tm_mon], which counts from 0,
    where the documented format ([YYYY/MM/DD]) has the month 01.  The
    rest of the line is as documented: the header and a line end go to
    the sink before the record, the record is the padded tag, the thread
    id and the message, and the bucket moves to the second of the
    write. *)
Theorem getTimeStamp_january_month_00 :
  getTimeStamp january 64 = Ok "2024/00/15 10:20:30 UTC+330mins" /\
  exists l',
    writecomposed january LOG_LEVEL_ERROR "service" "started" (Logger_new false)
      = Ok l' /\
    sink l' = ["2024/00/15 10:20:30 UTC+330mins"; CRLF;
               "service      4242 started"] /\
    lastmsgtime_ l' = now january.
Proof.
  split; [vm_compute; reflexivity|].
  eexists. repeat split; vm_compute; reflexivity.
Qed.

(* ===================================================================== *)
(** ** The service state machine                                          *)
(* ===================================================================== *)

Lemma count_SetEvent_app (a b : list SysCall) :
  count_SetEvent (a ++ b)%list = (count_SetEvent a + count_SetEvent b)%nat.
Proof.
  induction a as [|c a IH]; simpl; [reflexivity|].
  destruct c; simpl; now rewrite ?IH.
Qed.

Lemma count_SetServiceStatus_app (a b : list SysCall) :
  count_SetServiceStatus (a ++ b)%list
  = (count_SetServiceStatus a + count_SetServiceStatus b)%nat.
Proof.
  induction a as [|c a IH]; simpl; [reflexivity|].
  destruct c; simpl; now rewrite ?IH.
Qed.

(** [x |= SERVICE_ACCEPT_STOP] leaves the Stop bit set, and doing it
    twice is doing it once. *)
Lemma lor_accept_stop (x : Z) :
  Z.land (Z.lor x SERVICE_ACCEPT_STOP) SERVICE_ACCEPT_STOP <> 0.
Proof.
  unfold SERVICE_ACCEPT_STOP. intros H.
  assert (Hbit : Z.testbit (Z.land (Z.lor x 1) 1) 0 = true).
  { rewrite Z.land_spec, Z.lor_spec. simpl. now rewrite orb_true_r. }
  rewrite H in Hbit. discriminate.
Qed.

Lemma lor_accept_stop_twice (x : Z) :
  Z.lor (Z.lor x SERVICE_ACCEPT_STOP) SERVICE_ACCEPT_STOP
  = Z.lor x SERVICE_ACCEPT_STOP.
Proof. now rewrite <- Z.lor_assoc, Z.lor_diag. Qed.

(** What [setServiceStatus] leaves in the status record. *)
Lemma setServiceStatus_status (dwState : Z) (s : Service) :
  status_ (setServiceStatus dwState s)
  = set_dwControlsAccepted
      (if dwState =? SERVICE_START_PENDING then 0
       else Z.lor (dwControlsAccepted (status_ s)) SERVICE_ACCEPT_STOP)
      (set_dwCurrentState dwState (status_ s)).
Proof.
  destruct s as [nm hd q st dbg lg cs].
  unfold setServiceStatus, isDebugMode. cbn.
  destruct (dwState =? SERVICE_START_PENDING), dbg; reflexivity.
Qed.

(** In service mode every call of [setServiceStatus] reports once to the
    dispatcher; in debug mode it reports nothing. *)
Lemma setServiceStatus_calls (dwState : Z) (s : Service) :
  calls (setServiceStatus dwState s)
  = (calls s ++
     (if fDebugMode_ s then []
      else [CallSetServiceStatus (hServiceStatus_ s)
              (status_ (setServiceStatus dwState s))]))%list.
Proof.
  destruct s as [nm hd q st dbg lg cs].
  unfold setServiceStatus, isDebugMode. cbn.
  destruct (dwState =? SERVICE_START_PENDING), dbg; cbn;
    now rewrite ?app_nil_r.
Qed.

Lemma setServiceStatus_frame (dwState : Z) (s : Service) :
  hEventQuit_ (setServiceStatus dwState s) = hEventQuit_ s /\
  fDebugMode_ (setServiceStatus dwState s) = fDebugMode_ s /\
  hServiceStatus_ (setServiceStatus dwState s) = hServiceStatus_ s /\
  logger_ (setServiceStatus dwState s) = logger_ s.
Proof.
  destruct s as [nm hd q st dbg lg cs].
  unfold setServiceStatus, isDebugMode. cbn.
  destruct (dwState =? SERVICE_START_PENDING), dbg;
    repeat split; reflexivity.
Qed.

Lemma setServiceStatus_invariant (dwState : Z) (s : Service) :
  controls_invariant (setServiceStatus dwState s).
Proof.
  unfold controls_invariant. rewrite setServiceStatus_status. simpl.
  destruct (Z.eqb_spec dwState SERVICE_START_PENDING) as [->|Hne]; simpl.
  - split; [reflexivity | intros Hc; now elim Hc].
  - split; [intros Hc; now elim Hne|]. intros _ _.
    unfold accepts_stop; simpl.
    destruct (Z.eqb_spec (Z.land (Z.lor (dwControlsAccepted (status_ s))
                                    SERVICE_ACCEPT_STOP) SERVICE_ACCEPT_STOP) 0)
      as [H0|_]; [|reflexivity].
    now apply lor_accept_stop in H0.
Qed.

Lemma onStop_status (s : Service) :
  status_ (onStop s) = status_ (setServiceStatus SERVICE_STOP_PENDING s).
Proof. reflexivity. Qed.

(** A delivery leaves the status as it is, or is the stop path. *)
Lemma deliver_cases (d : Delivery) (s : Service) :
  deliver d s = s \/ deliver d s = onStop s.
Proof.
  destruct d as [c t|c]; simpl.
  - unfold serviceControlHandlerEx, onPause, onContinue, onInterrogate,
      onPreShutdown, onShutdown, onDeviceEvent, onHardwareProfileChange,
      onSessionChange, onPowerEvent, onUnknownRequest.
    repeat (match goal with |- context [if ?b then _ else _] => destruct b end);
      simpl; auto.
  - unfold consoleCtrlHandler.
    destruct (_ || _); simpl; auto.
Qed.

Lemma onStop_invariant (s : Service) : controls_invariant (onStop s).
Proof.
  unfold controls_invariant. rewrite onStop_status.
  apply setServiceStatus_invariant.
Qed.

Lemma apply_op_invariant (o : Op) (s : Service) :
  controls_invariant s -> controls_invariant (apply_op o s).
Proof.
  intros Hinv. destruct o as [dwState|d]; simpl.
  - apply setServiceStatus_invariant.
  - destruct (deliver_cases d s) as [-> | ->];
      [assumption | apply onStop_invariant].
Qed.

Lemma apply_ops_invariant (ops : list Op) (s : Service) :
  controls_invariant s -> controls_invariant (apply_ops ops s).
Proof.
  unfold apply_ops. revert s.
  induction ops as [|o ops IH]; intros s Hinv; simpl; [assumption|].
  apply IH. now apply apply_op_invariant.
Qed.

Lemma onStop_calls (s : Service) :
  calls (onStop s)
  = (calls s ++
     (if fDebugMode_ s then []
      else [CallSetServiceStatus (hServiceStatus_ s) (status_ (onStop s))]) ++
     [CallSetEvent])%list.
Proof.
  unfold onStop, SetEvent. cbn [calls call with_quit].
  rewrite setServiceStatus_calls, <- app_assoc. reflexivity.
Qed.

Lemma onStop_count_SetEvent (s : Service) :
  count_SetEvent (calls (onStop s)) = S (count_SetEvent (calls s)).
Proof.
  rewrite onStop_calls, !count_SetEvent_app.
  destruct (fDebugMode_ s); simpl; lia.
Qed.

Lemma onStop_state (s : Service) :
  dwCurrentState (status_ (onStop s)) = SERVICE_STOP_PENDING /\
  hEventQuit_ (onStop s) = true.
Proof.
  split; [rewrite onStop_status, setServiceStatus_status|]; reflexivity.
Qed.

Lemma onStop_frame (s : Service) :
  fDebugMode_ (onStop s) = fDebugMode_ s /\
  hServiceStatus_ (onStop s) = hServiceStatus_ s /\
  logger_ (onStop s) = logger_ s.
Proof.
  destruct (setServiceStatus_frame SERVICE_STOP_PENDING s) as (_ & Hd & Hh & Hl).
  unfold onStop, SetEvent. cbn [fDebugMode_ hServiceStatus_ logger_ call with_quit].
  auto.
Qed.

Lemma onStop_twice_status (s : Service) :
  status_ (onStop (onStop s)) = status_ (onStop s).
Proof.
  rewrite !onStop_status, !setServiceStatus_status.
  rewrite onStop_status, setServiceStatus_status. cbn.
  now rewrite lor_accept_stop_twice.
Qed.

Lemma serviceControlHandlerEx_stop (dwEventType : Z) (s : Service) :
  serviceControlHandlerEx SERVICE_CONTROL_STOP dwEventType s = (NO_ERROR, onStop s).
Proof. reflexivity. Qed.

(** C1, as the code has it -- Delivering Stop while the state is Running
    runs [onStop]: the state becomes StopPending (reported in service
    mode), then [::SetEvent] is called on the quit event.  Delivering
    Stop again returns [NO_ERROR] and leaves the state StopPending and
    the event signalled, but it is a second run of [onStop]: the status
    is set (and reported) again and [::SetEvent] is called a second
    time. *)
Theorem stop_twice (t1 t2 : Z) (s s1 s2 : Service) (r1 r2 : Z) :
  dwCurrentState (status_ s) = SERVICE_RUNNING ->
  serviceControlHandlerEx SERVICE_CONTROL_STOP t1 s = (r1, s1) ->
  serviceControlHandlerEx SERVICE_CONTROL_STOP t2 s1 = (r2, s2) ->
  s1 = SetEvent (setServiceStatus SERVICE_STOP_PENDING s) /\
  r1 = NO_ERROR /\
  dwCurrentState (status_ s1) = SERVICE_STOP_PENDING /\
  hEventQuit_ s1 = true /\
  calls s1 = (calls s ++
              (if fDebugMode_ s then []
               else [CallSetServiceStatus (hServiceStatus_ s) (status_ s1)]) ++
              [CallSetEvent])%list /\
  r2 = NO_ERROR /\
  status_ s2 = status_ s1 /\
  hEventQuit_ s2 = true /\
  calls s2 = (calls s1 ++
              (if fDebugMode_ s then []
               else [CallSetServiceStatus (hServiceStatus_ s) (status_ s1)]) ++
              [CallSetEvent])%list /\
  count_SetEvent (calls s2) = S (S (count_SetEvent (calls s))).
Proof.
  intros _. rewrite !serviceControlHandlerEx_stop.
  intros [= <- <-] [= <- <-].
  pose proof (onStop_twice_status s) as Htwice.
  repeat split; try apply onStop_state.
  - apply onStop_calls.
  - exact Htwice.
  - rewrite (onStop_calls (onStop s)), Htwice.
    destruct (onStop_frame s) as (-> & -> & _). reflexivity.
  - now rewrite !onStop_count_SetEvent.
Qed.

Lemma stop_twice_witness :
  count_SetEvent
    (calls (onStop (onStop demo_running)))
  = S (S (count_SetEvent (calls demo_running))).
Proof.
  apply (stop_twice 0 0 demo_running (onStop demo_running)
           (onStop (onStop demo_running)) NO_ERROR NO_ERROR);
    reflexivity.
Defined.

(** C1, as the spec has it, fails: the controller that is Running gets
    Stop twice; the quit event is then set by two calls of [::SetEvent],
    not by one, and the StopPending status was reported twice. *)
Lemma second_stop_sets_event_again :
  dwCurrentState (status_ demo_running) = SERVICE_RUNNING /\
  count_SetEvent
    (calls (snd (serviceControlHandlerEx SERVICE_CONTROL_STOP 0 demo_running)))
  = 1%nat /\
  count_SetEvent
    (calls (snd (serviceControlHandlerEx SERVICE_CONTROL_STOP 0
              (snd (serviceControlHandlerEx SERVICE_CONTROL_STOP 0 demo_running)))))
  = 2%nat /\
  count_SetServiceStatus
    (calls (snd (serviceControlHandlerEx SERVICE_CONTROL_STOP 0
              (snd (serviceControlHandlerEx SERVICE_CONTROL_STOP 0 demo_running)))))
  = 3%nat.
Proof. repeat split; vm_compute; reflexivity. Qed.

(** C2 -- In debug mode the console signals Ctrl+C, Ctrl+Break and
    console shutdown run the very [onStop] that the Stop control runs in
    service mode: on one controller the two handlers end in the same
    state, and on a debug-mode and a service-mode controller that agree
    on status and quit event they still agree afterwards, with the state
    StopPending, the event signalled and one more [::SetEvent] call
    each.  For every other console signal the handler answers [FALSE]
    and the controller is untouched. *)
Theorem console_signal_is_stop (c t : Z) (d v : Service) :
  fDebugMode_ d = true ->
  fDebugMode_ v = false ->
  status_ d = status_ v ->
  hEventQuit_ d = hEventQuit_ v ->
  (c = CTRL_C_EVENT \/ c = CTRL_BREAK_EVENT \/ c = CTRL_SHUTDOWN_EVENT ->
     consoleCtrlHandler c d = (true, onStop d) /\
     serviceControlHandlerEx SERVICE_CONTROL_STOP t v = (NO_ERROR, onStop v) /\
     snd (consoleCtrlHandler c d)
       = snd (serviceControlHandlerEx SERVICE_CONTROL_STOP t d) /\
     status_ (onStop d) = status_ (onStop v) /\
     dwCurrentState (status_ (onStop d)) = SERVICE_STOP_PENDING /\
     hEventQuit_ (onStop d) = true /\
     hEventQuit_ (onStop v) = true /\
     count_SetEvent (calls (onStop d)) = S (count_SetEvent (calls d)) /\
     count_SetEvent (calls (onStop v)) = S (count_SetEvent (calls v))) /\
  (c <> CTRL_C_EVENT -> c <> CTRL_BREAK_EVENT -> c <> CTRL_SHUTDOWN_EVENT ->
     consoleCtrlHandler c d = (false, d)).
Proof.
  intros Hd Hv Hst Hq. split.
  - intros Hc.
    assert (Hh : consoleCtrlHandler c d = (true, onStop d)).
    { unfold consoleCtrlHandler.
      destruct Hc as [-> | [-> | ->]]; reflexivity. }
    repeat split; try apply onStop_state; try apply onStop_count_SetEvent.
    + exact Hh.
    + now rewrite Hh.
    + rewrite !onStop_status, !setServiceStatus_status. now rewrite Hst.
  - intros H0 H1 H6. unfold consoleCtrlHandler.
    destruct (Z.eqb_spec c CTRL_C_EVENT); [contradiction|].
    destruct (Z.eqb_spec c CTRL_BREAK_EVENT); [contradiction|].
    destruct (Z.eqb_spec c CTRL_SHUTDOWN_EVENT); [contradiction|].
    reflexivity.
Qed.

Lemma console_signal_is_stop_witness :
  (consoleCtrlHandler CTRL_BREAK_EVENT demo_running_debug
     = (true, onStop demo_running_debug) /\
   status_ (onStop demo_running_debug) = status_ (onStop demo_running)) /\
  consoleCtrlHandler CTRL_CLOSE_EVENT demo_running_debug
    = (false, demo_running_debug).
Proof.
  split.
  - destruct (console_signal_is_stop CTRL_BREAK_EVENT 0
                demo_running_debug demo_running) as [Hstop _];
      try reflexivity.
    destruct Hstop as (H1 & _ & _ & H4 & _); [right; left; reflexivity|].
    split; assumption.
  - apply (console_signal_is_stop CTRL_CLOSE_EVENT 0
             demo_running_debug demo_running); try reflexivity;
      vm_compute; discriminate.
Defined.

(** The entry sequence in service mode when the handler cannot be
    registered: the state has been written, the registration attempted,
    and that is all. *)
Lemma serviceMain_no_handler (body : WorkBody) (h : Host) (s : Service) :
  fDebugMode_ s = false ->
  hRegistered h = 0 ->
  serviceMain body h s
  = Some (with_handle 0
            (call (CallRegisterServiceCtrlHandlerEx (szServiceName_ s))
               (with_status
                  (set_dwCurrentState SERVICE_START_PENDING (status_ s)) s))).
Proof.
  intros Hd Hh. destruct s as [nm hd q st dbg lg cs].
  cbn in Hd. subst dbg. unfold serviceMain, isDebugMode.
  rewrite Hh. reflexivity.
Qed.

(** The entry sequence once the handlers are in place: the status is
    reported, the work body runs on the state [s1], and its value
    becomes the exit code. *)
Lemma serviceMain_runs_body (body : WorkBody) (h : Host) (s : Service) :
  fDebugMode_ s = true \/ hRegistered h <> 0 ->
  exists s1,
    (forall b : WorkBody, b s1 = None -> serviceMain b h s = None) /\
    (forall (b : WorkBody) ret s2, b s1 = Some (ret, s2) ->
       serviceMain b h s
       = Some (setServiceStatus SERVICE_STOPPED
                 (with_status (set_dwWin32ExitCode ret (status_ s2)) s2))).
Proof.
  intros Hmode. destruct s as [nm hd q st dbg lg cs].
  unfold serviceMain, isDebugMode.
  destruct dbg; cbn -[setServiceStatus Z.eqb].
  - eexists. split; intros b; [intros Hb | intros ret s2 Hb];
      unfold mbind, option_bind; rewrite Hb; reflexivity.
  - destruct Hmode as [Hc | Hreg]; [discriminate|].
    destruct (Z.eqb_spec (hRegistered h) 0) as [?|_]; [contradiction|].
    eexists. split; intros b; [intros Hb | intros ret s2 Hb];
      unfold mbind, option_bind; rewrite Hb; reflexivity.
Qed.

(** The constructor leaves the state Stopped and nothing accepted. *)
Lemma TConsoleService_invariant (lpszServiceName : string) (logger : Logger)
    (s0 : Service) (debug : bool) :
  TConsoleService lpszServiceName logger = Ok s0 ->
  controls_invariant (with_debug debug s0).
Proof.
  intros Hnew.
  unfold TConsoleService, mbind, outcome_bind, bind in Hnew.
  destruct (wcscpy_s 128 lpszServiceName); [|discriminate].
  injection Hnew as <-. split; cbn.
  - discriminate.
  - intros _ Hst. now elim Hst.
Qed.

(** C3, as the code has it -- After construction, in either run mode,
    every sequence of [setServiceStatus] calls and handler deliveries
    keeps the accepted controls in line with the state: none while the
    start is pending, Stop in every other state but Stopped.  Each call
    of [setServiceStatus] recomputes the set, and a handler changes the
    state through [setServiceStatus] or not at all.  The entry sequence
    is the exception: it first writes StartPending into the status
    record by itself, without recomputing the set and without a report,
    as the run with a failed handler registration shows. *)
Theorem controls_accepted_invariant
    (lpszServiceName : string) (logger : Logger) (s0 : Service)
    (debug : bool) (ops : list Op) :
  TConsoleService lpszServiceName logger = Ok s0 ->
  controls_invariant (apply_ops ops (with_debug debug s0)) /\
  (forall dwState s,
     dwControlsAccepted (status_ (setServiceStatus dwState s))
     = if dwState =? SERVICE_START_PENDING then 0
       else Z.lor (dwControlsAccepted (status_ s)) SERVICE_ACCEPT_STOP) /\
  (forall d s,
     deliver d s = s \/
     deliver d s = SetEvent (setServiceStatus SERVICE_STOP_PENDING s)) /\
  (forall (body : WorkBody) h s,
     fDebugMode_ s = false -> hRegistered h = 0 ->
     exists s',
       serviceMain body h s = Some s' /\
       dwCurrentState (status_ s') = SERVICE_START_PENDING /\
       dwControlsAccepted (status_ s') = dwControlsAccepted (status_ s) /\
       count_SetServiceStatus (calls s') = count_SetServiceStatus (calls s)).
Proof.
  intros Hnew. split; [|split; [|split]].
  - apply apply_ops_invariant.
    now apply (TConsoleService_invariant lpszServiceName logger).
  - intros dwState s. rewrite setServiceStatus_status.
    now destruct (dwState =? SERVICE_START_PENDING).
  - apply deliver_cases.
  - intros body h s Hd Hh. eexists. split.
    + now apply serviceMain_no_handler.
    + cbn. rewrite count_SetServiceStatus_app. cbn. repeat split. lia.
Qed.

Lemma controls_accepted_invariant_witness :
  controls_invariant
    (apply_ops [OpSetState SERVICE_START_PENDING;
                OpSetState SERVICE_RUNNING;
                OpDeliver (Control SERVICE_CONTROL_PAUSE 0);
                OpDeliver (Control SERVICE_CONTROL_STOP 0)]
       (with_debug false demo)).
Proof.
  apply (controls_accepted_invariant "demo"
           (setLevel LOG_LEVEL_VERBOSE (Logger_new false)) demo false).
  reflexivity.
Defined.

(** C3, as the spec has it, fails on its last clause: in service mode
    with the handler registration failing, the entry sequence takes the
    fresh controller from Stopped to StartPending although
    [setServiceStatus] never ran (it would have reported to the
    dispatcher).  After an earlier [setServiceStatus(SERVICE_RUNNING)]
    the same run ends in StartPending with Stop still accepted. *)
Lemma serviceMain_writes_state_directly :
  dwCurrentState (status_ demo) = SERVICE_STOPPED /\
  (exists s',
     serviceMain body_forever host_no_handler demo = Some s' /\
     dwCurrentState (status_ s') = SERVICE_START_PENDING /\
     count_SetServiceStatus (calls s') = 0%nat) /\
  (exists s',
     serviceMain body_forever host_no_handler
       (apply_ops [OpSetState SERVICE_RUNNING] demo) = Some s' /\
     dwCurrentState (status_ s') = SERVICE_START_PENDING /\
     dwControlsAccepted (status_ s') = SERVICE_ACCEPT_STOP).
Proof.
  split; [reflexivity|].
  split; eexists; repeat split; vm_compute; reflexivity.
Qed.

(** C9, as the code has it -- In service mode, when the control handler
    cannot be registered, the entry sequence returns at once: whatever
    the work body is, it is not run; the only call made is the failed
    registration, so no status is reported; the exit code and the quit
    event are as before; the state stays StartPending and never becomes
    Running.  Nothing is written to the log: the logger is untouched. *)
Theorem handler_registration_failure (body : WorkBody) (h : Host) (s : Service) :
  fDebugMode_ s = false ->
  hRegistered h = 0 ->
  exists s',
    serviceMain body h s = Some s' /\
    (forall other : WorkBody, serviceMain other h s = Some s') /\
    calls s' = (calls s ++
                [CallRegisterServiceCtrlHandlerEx (szServiceName_ s)])%list /\
    count_SetServiceStatus (calls s') = count_SetServiceStatus (calls s) /\
    dwCurrentState (status_ s') = SERVICE_START_PENDING /\
    dwCurrentState (status_ s') <> SERVICE_RUNNING /\
    dwWin32ExitCode (status_ s') = dwWin32ExitCode (status_ s) /\
    hEventQuit_ s' = hEventQuit_ s /\
    logger_ s' = logger_ s.
Proof.
  intros Hd Hh. eexists. split; [now apply serviceMain_no_handler|].
  split; [intros other; now apply serviceMain_no_handler|].
  cbn. rewrite count_SetServiceStatus_app. cbn.
  repeat split; try reflexivity; try lia. discriminate.
Qed.

Lemma handler_registration_failure_witness :
  serviceMain body_forever host_no_handler demo
  = serviceMain body_seven host_no_handler demo.
Proof.
  destruct (handler_registration_failure body_seven host_no_handler demo)
    as (s' & Hrun & Hany & _); [reflexivity | reflexivity |].
  rewrite Hrun. apply Hany.
Defined.

(** C9, as the spec has it, fails on the logging: the controller's
    logger lets every predefined level through, the registration fails,
    and the sink has received nothing. *)
Lemma handler_failure_is_not_logged :
  getLevel (logger_ demo) = LOG_LEVEL_VERBOSE /\
  exists s',
    serviceMain body_seven host_no_handler demo = Some s' /\
    sink (logger_ s') = [] /\
    events (logger_ s') = [].
Proof.
  split; [reflexivity|]. eexists. repeat split.
Qed.

(** Reading the arguments only ever touches the debug flag. *)
Lemma scan_arg_with_debug (a : string) (s : Service) :
  exists b, scan_arg a s = with_debug b s.
Proof.
  assert (Hid : s = with_debug (fDebugMode_ s) s) by now destruct s.
  unfold scan_arg. destruct a as [|c rest]; [eauto|].
  destruct (_ || _)%bool; [|eauto].
  destruct (_ =? _); eauto.
Qed.

Lemma scan_args_with_debug (args : list string) (s : Service) :
  fold_left (fun s a => scan_arg a s) args s
  = with_debug (fDebugMode_ (fold_left (fun s a => scan_arg a s) args s)) s.
Proof.
  revert s. induction args as [|a args IH]; intros s; simpl.
  - now destruct s.
  - destruct (scan_arg_with_debug a s) as [b Hb].
    rewrite IH, Hb. now destruct s.
Qed.

(** C4, as the code has it -- [start] has three outcomes.  When the
    dispatcher cannot be reached in service mode it returns the error
    code of that failure.  When the work body is reached (debug mode, or
    service mode with the control handler registered) it returns the
    value the work body returns, and does not return if the work body
    does not; the default work body returns 0.  When the dispatcher is
    reached but the control handler cannot be registered, the work body
    is not run and [start] returns the exit code the controller already
    held, which is 0 after construction. *)
Theorem start_exit_code (body : WorkBody) (h : Host) (s : Service) :
  (forall err,
     debug_requested h s = false -> dispatcher h = Some err ->
     exists s', start body h s = Some (err, s')) /\
  (debug_requested h s = true \/ (dispatcher h = None /\ hRegistered h <> 0) ->
     exists s1,
       (forall b : WorkBody, b s1 = None -> start b h s = None) /\
       (forall (b : WorkBody) ret s2, b s1 = Some (ret, s2) ->
          exists s', start b h s = Some (ret, s'))) /\
  (debug_requested h s = false -> dispatcher h = None -> hRegistered h = 0 ->
     exists s', start body h s = Some (dwWin32ExitCode (status_ s), s')) /\
  (forall pending s1 ret s2, run pending s1 = Some (ret, s2) -> ret = 0) /\
  (forall name logger, TConsoleService name logger = Ok s ->
     dwWin32ExitCode (status_ s) = 0).
Proof.
  unfold debug_requested, start. rewrite scan_args_with_debug.
  set (dbg := fDebugMode_ (fold_left _ _ _)).
  split; [|split; [|split; [|split]]].
  - intros err Hdbg Herr. rewrite Hdbg. cbn [fDebugMode_ with_debug].
    rewrite Herr. eexists. reflexivity.
  - intros Hreach. cbn [fDebugMode_ with_debug].
    destruct dbg.
    + destruct (serviceMain_runs_body body h (with_debug true s))
        as (s1 & Hnone & Hsome); [left; reflexivity|].
      exists s1. split.
      * intros b Hb. now rewrite (Hnone b Hb).
      * intros b ret s2 Hb. rewrite (Hsome b ret s2 Hb).
        eexists. cbn -[setServiceStatus]. rewrite setServiceStatus_status.
        reflexivity.
    + destruct Hreach as [Hc | [Hdisp Hreg]]; [discriminate|].
      rewrite Hdisp.
      destruct (serviceMain_runs_body body h
                  (call (CallStartServiceCtrlDispatcher
                           (szServiceName_ (with_debug false s)))
                     (with_debug false s)))
        as (s1 & Hnone & Hsome); [right; exact Hreg|].
      exists s1. split.
      * intros b Hb. now rewrite (Hnone b Hb).
      * intros b ret s2 Hb. rewrite (Hsome b ret s2 Hb).
        eexists. cbn -[setServiceStatus]. rewrite setServiceStatus_status.
        reflexivity.
  - intros Hdbg Hdisp Hreg. cbn [fDebugMode_ with_debug] in Hdbg.
    rewrite Hdbg. cbn [fDebugMode_ with_debug].
    rewrite Hdisp, serviceMain_no_handler; [|reflexivity|exact Hreg].
    eexists. reflexivity.
  - intros pending s1 ret s2. unfold run, mbind, option_bind.
    destruct (WaitForSingleObject _ _); [|discriminate].
    now intros [= <- _].
  - intros name logger Hnew.
    unfold TConsoleService, mbind, outcome_bind, bind in Hnew.
    destruct (wcscpy_s 128 name); [|discriminate].
    now injection Hnew as <-.
Qed.

Lemma start_exit_code_witness :
  (exists s', start body_seven host_no_dispatcher demo = Some (1063, s')) /\
  (exists s', start body_seven host_service demo = Some (7, s')) /\
  (exists s', start body_seven host_no_handler demo = Some (0, s')).
Proof.
  destruct (start_exit_code body_seven host_no_dispatcher demo) as (Herr & _).
  destruct (start_exit_code body_seven host_service demo)
    as (_ & Hbody & _).
  destruct (start_exit_code body_seven host_no_handler demo)
    as (_ & _ & Hfail & _).
  split; [|split].
  - apply Herr; reflexivity.
  - destruct Hbody as (s1 & _ & Hsome).
    + right. split; [reflexivity | vm_compute; discriminate].
    + apply (Hsome body_seven 7 s1). reflexivity.
  - apply Hfail; reflexivity.
Defined.

(** C4, as the spec has it, fails: the dispatcher is reached, the work
    body would return 7, the handler registration fails, and [start]
    returns 0. *)
Lemma start_returns_0_not_the_body_value :
  dispatcher host_no_handler = None /\
  (forall s, body_seven s = Some (7, s)) /\
  exists s', start body_seven host_no_handler demo = Some (0, s').
Proof.
  split; [reflexivity|]. split; [reflexivity|].
  eexists. vm_compute. reflexivity.
Qed.

(** The scenario of the spec: the controller ["demo"] started with the
    debug switch reaches Running, an interrupt arrives, and [start]
    returns the 0 of the default work body with the state Stopped. *)
Example debug_run_end_to_end :
  exists s',
    start (run [Console CTRL_C_EVENT]) host_debug demo = Some (0, s') /\
    dwCurrentState (status_ s') = SERVICE_STOPPED /\
    hEventQuit_ s' = true /\
    calls s' = [CallSetConsoleCtrlHandler;
                CallPutws "Press Ctrl+C or Ctrl+Break to quit...";
                CallSetEvent].
Proof.
  eexists. split; [vm_compute; reflexivity|].
  repeat split; vm_compute; reflexivity.
Qed.

(* ===================================================================== *)
(** ** Rollover                                                           *)
(* ===================================================================== *)

Lemma dec_inj (a b : Z) : dec a = dec b -> a = b.
Proof.
  unfold dec. intros H.
  apply DecimalZ.to_int_inj.
  assert (Hs : NilEmpty.int_of_string (NilEmpty.string_of_int (Z.to_int a))
               = NilEmpty.int_of_string (NilEmpty.string_of_int (Z.to_int b)))
    by now rewrite H.
  rewrite !NilEmpty.isi in Hs. now injection Hs.
Qed.

Lemma append_inv_tail (a b e : string) : a ++ e = b ++ e -> a = b.
Proof.
  revert b. induction a as [|c a IH]; intros [|c' b] H.
  - reflexivity.
  - exfalso. apply (f_equal wcslen) in H.
    change (wcslen e = wcslen (String c' (b ++ e))) in H.
    unfold wcslen in H. simpl in H. fold (wcslen (b ++ e)) in H.
    rewrite wcslen_app in H. unfold wcslen in H. lia.
  - exfalso. apply (f_equal wcslen) in H.
    change (wcslen (String c (a ++ e)) = wcslen e) in H.
    unfold wcslen in H. simpl in H. fold (wcslen (a ++ e)) in H.
    rewrite wcslen_app in H. unfold wcslen in H. lia.
  - change (String c (a ++ e) = String c' (b ++ e)) in H.
    injection H as -> H. f_equal. now apply IH.
Qed.

Lemma append_inv_head (a x y : string) : a ++ x = a ++ y -> x = y.
Proof.
  induction a as [|c a IH]; intros H; [exact H|].
  change (String c (a ++ x) = String c (a ++ y)) in H.
  injection H as H. now apply IH.
Qed.

Section RolledNames.
Variables szPath szName szExt : string.

Lemma rolled_text_inj (i j : Z) :
  rolled_text szPath szName szExt i = rolled_text szPath szName szExt j -> i = j.
Proof.
  unfold rolled_text. intros H.
  do 3 apply append_inv_head in H.
  apply append_inv_tail in H. now apply dec_inj.
Qed.

Lemma active_name_not_rolled (i : Z) :
  active_name szPath szName szExt <> rolled_text szPath szName szExt i.
Proof.
  unfold active_name, rolled_text. intros H.
  do 2 apply append_inv_head in H.
  apply (f_equal wcslen) in H. rewrite !wcslen_app in H.
  unfold wcslen in H. simpl in H. lia.
Qed.

Lemma rolled_name_fits (i : Z) :
  fits szPath szName szExt i ->
  rolled_name szPath szName szExt i = Ok (rolled_text szPath szName szExt i).
Proof.
  unfold fits, rolled_name, swprintf_s. intros Hfit.
  destruct (Nat.ltb_spec (wcslen (rolled_text szPath szName szExt i)) MAX_PATH);
    [reflexivity | lia].
Qed.

End RolledNames.

Lemma int32_small (z : Z) : - 2 ^ 31 <= z < 2 ^ 31 -> int32 z = z.
Proof.
  intros Hz. unfold int32. rewrite Z.mod_small; lia.
Qed.

Lemma waccess_Some (name c : string) (fs : Fs) :
  files fs !! name = Some c -> waccess name fs = true.
Proof.
  intros H. unfold waccess. apply bool_decide_eq_true_2. eauto.
Qed.

Lemma waccess_None (name : string) (fs : Fs) :
  files fs !! name = None -> waccess name fs = false.
Proof.
  intros H. unfold waccess. apply bool_decide_eq_false_2.
  rewrite H. intros [c Hc]. discriminate.
Qed.

Lemma wrename_ok (src dst c : string) (fs : Fs) :
  files fs !! src = Some c ->
  files fs !! dst = None ->
  wrename src dst fs
  = {| files := <[dst := c]> (delete src (files fs));
       renames := renames fs ++ [(src, dst, true)] |}.
Proof. intros Hs Hd. unfold wrename. now rewrite Hs, Hd. Qed.

Section Chain.
Variables szPath szName szExt : string.
Abbreviation rolled := (rolled_text szPath szName szExt).



End Chain.



(** The case written out in the spec, run on the model: the former
    active file is demo_1.log, the former demo_1.log is demo_2.log, the
    former demo_2.log is demo_3.log. *)
Example rollover_two_rolled :
  exists fs',
    rollover 3 "C:\logs\" "demo" ".log" two_rolled = Some (Ok fs') /\
    map_to_list (files fs')
    = [("C:\logs\demo_3.log", "second"); ("C:\logs\demo_1.log", "active");
       ("C:\logs\demo_2.log", "first")] /\
    renames fs'
    = [("C:\logs\demo_2.log", "C:\logs\demo_3.log", true);
       ("C:\logs\demo_1.log", "C:\logs\demo_2.log", true);
       ("C:\logs\demo.log", "C:\logs\demo_1.log", true)].
Proof.
  eexists. split; [vm_compute; reflexivity|].
  split; vm_compute; reflexivity.
Qed.

(* ===================================================================== *)
(** ** The width of printed numbers                                       *)
(* ===================================================================== *)

Lemma wcslen_fill (c : ascii) (n : nat) : wcslen (fill c n) = n.
Proof.
  unfold wcslen. induction n as [|n IH]; simpl; [reflexivity | now rewrite IH].
Qed.

Lemma wcslen_pad_left (c : ascii) (w : nat) (s : string) :
  wcslen (pad_left c w s) = Nat.max w (wcslen s).
Proof. unfold pad_left. rewrite wcslen_app, wcslen_fill. lia. Qed.

Lemma wcslen_pad_right (c : ascii) (w : nat) (s : string) :
  wcslen (pad_right c w s) = Nat.max w (wcslen s).
Proof. unfold pad_right. rewrite wcslen_app, wcslen_fill. lia. Qed.

Lemma string_of_uint_length (u : Decimal.uint) :
  wcslen (NilEmpty.string_of_uint u) = Decimal.nb_digits u.
Proof.
  unfold wcslen. induction u; simpl; try reflexivity; now rewrite IHu.
Qed.

(** Reading digits after an accumulator multiplies it by ten for each
    digit, at least. *)
Lemma of_uint_acc_lower (l : Decimal.uint) :
  forall acc : positive,
    Z.pos acc * 10 ^ Z.of_nat (Decimal.nb_digits l)
    <= Z.pos (Pos.of_uint_acc l acc).
Proof.
  induction l; intros acc; cbn [Decimal.nb_digits Pos.of_uint_acc];
    [simpl; lia | ..];
    (etransitivity; [|apply IHl]);
    rewrite Nat2Z.inj_succ, Z.pow_succ_r by lia;
    assert (0 < 10 ^ Z.of_nat (Decimal.nb_digits l)) by (apply Z.pow_pos_nonneg; lia);
    nia.
Qed.

Lemma of_uint_lower (u : Decimal.uint) (p : positive) :
  Pos.of_uint u = Npos p ->
  10 ^ (Z.of_nat (Decimal.nb_digits (Decimal.nzhead u)) - 1) <= Z.pos p.
Proof.
  induction u; cbn [Pos.of_uint Decimal.nzhead]; intros H;
    try discriminate; try (now apply IHu);
    injection H as <-;
    cbn [Decimal.nb_digits]; rewrite Nat2Z.inj_succ;
    replace (Z.succ (Z.of_nat (Decimal.nb_digits u)) - 1)
      with (Z.of_nat (Decimal.nb_digits u)) by lia;
    (etransitivity; [|apply of_uint_acc_lower]);
    assert (0 < 10 ^ Z.of_nat (Decimal.nb_digits u)) by (apply Z.pow_pos_nonneg; lia);
    nia.
Qed.

Lemma to_uint_nzhead (p : positive) :
  Decimal.nzhead (Pos.to_uint p) = Pos.to_uint p.
Proof.
  pose proof (DecimalPos.Unsigned.to_of (Pos.to_uint p)) as Hnorm.
  rewrite DecimalPos.Unsigned.of_to in Hnorm. cbn [N.to_uint] in Hnorm.
  unfold Decimal.unorm in Hnorm.
  destruct (Decimal.nzhead (Pos.to_uint p)) eqn:Hhead; try (now symmetry).
  exfalso. now apply (DecimalPos.Unsigned.to_uint_nonzero p).
Qed.

(** A positive number below [10 ^ k] prints in at most [k] digits. *)
Lemma to_uint_digits (p : positive) (k : nat) :
  Z.pos p < 10 ^ Z.of_nat k ->
  (1 <= Decimal.nb_digits (Pos.to_uint p) <= k)%nat.
Proof.
  intros Hlt.
  pose proof (of_uint_lower (Pos.to_uint p) p (DecimalPos.Unsigned.of_to p)) as Hlow.
  rewrite to_uint_nzhead in Hlow.
  assert (Hne : Decimal.nb_digits (Pos.to_uint p) <> 0%nat).
  { intros H0. apply DecimalFacts.nb_digits_0 in H0.
    now apply (DecimalPos.Unsigned.to_uint_nonnil p). }
  split; [lia|].
  destruct (Nat.le_gt_cases (Decimal.nb_digits (Pos.to_uint p)) k) as [?|Hgt];
    [assumption|exfalso].
  assert (10 ^ Z.of_nat k <= 10 ^ (Z.of_nat (Decimal.nb_digits (Pos.to_uint p)) - 1))
    by (apply Z.pow_le_mono_r; lia).
  lia.
Qed.

(** [%d] of a number in [0, 10 ^ k) takes at most [k] characters, and of
    a number in (- 10 ^ k, 0) one more for the sign. *)
Lemma dec_length (z : Z) (k : nat) :
  (1 <= k)%nat ->
  - 10 ^ Z.of_nat k < z < 10 ^ Z.of_nat k ->
  (1 <= wcslen (dec z) <= k + (if (z <? 0)%Z then 1 else 0))%nat.
Proof.
  intros Hk Hz. unfold dec. destruct z as [|p|p].
  - cbn. lia.
  - cbn [Z.to_int NilEmpty.string_of_int Z.ltb Z.compare].
    rewrite string_of_uint_length.
    pose proof (to_uint_digits p k). lia.
  - cbn [Z.to_int NilEmpty.string_of_int Z.ltb Z.compare].
    change (wcslen (String "-" ?s)) with (S (wcslen s)).
    rewrite string_of_uint_length.
    pose proof (to_uint_digits p k). lia.
Qed.

Lemma int32_range (z : Z) : - 2 ^ 31 <= int32 z < 2 ^ 31.
Proof.
  unfold int32. pose proof (Z.mod_pos_bound (z + 2 ^ 31) (2 ^ 32)). lia.
Qed.

(** [%0<w>d] of a number that has at most [w] digits is [w] wide. *)
Lemma fmt_0d_exact (w : nat) (z : Z) :
  (1 <= w)%nat -> 0 <= z < 10 ^ Z.of_nat w -> wcslen (fmt_0d w z) = w.
Proof.
  intros Hw Hz. unfold fmt_0d.
  destruct (Z.ltb_spec z 0) as [?|_]; [lia|].
  rewrite wcslen_pad_left.
  pose proof (dec_length z w Hw) as Hlen.
  destruct (Z.ltb_spec z 0) as [?|_]; lia.
Qed.

(** [%4d] of any [int] is between 4 and 11 wide. *)
Lemma fmt_d_int32 (z : Z) : (4 <= wcslen (fmt_d 4 (int32 z)) <= 11)%nat.
Proof.
  unfold fmt_d. rewrite wcslen_pad_left.
  pose proof (int32_range z) as Hr.
  pose proof (dec_length (int32 z) 10) as Hlen.
  assert (Hpow : 2 ^ 31 < 10 ^ Z.of_nat 10) by (vm_compute; reflexivity).
  destruct (Z.ltb_spec (int32 z) 0); lia.
Qed.

(* ===================================================================== *)
(** ** The logger on accepted writes                                      *)
(* ===================================================================== *)

(** The text [getTimeStamp] prints, whatever the buffer: with calendar
    values it is 29 to 31 characters long. *)
Lemma getTimeStamp_text (e : Env) :
  calendar e ->
  exists text,
    (forall nChars, getTimeStamp e nChars = swprintf_s nChars text) /\
    (29 <= wcslen text <= 31)%nat.
Proof.
  intros (Hy & Hmon & Hd & Hh & Hmin & Hs & Hz).
  unfold getTimeStamp. eexists. split; [intros nChars; reflexivity|].
  rewrite (int32_small (1900 + tm_year (lnow e))) by lia.
  set (q := Z.quot (zone e) 60).
  assert (Hq : -1000 < q < 1000).
  { subst q. Z.to_euclidean_division_equations. lia. }
  set (zonemins := if q <? 0 then int32 (q * -1) else q).
  assert (Hzm : 0 <= zonemins < 1000).
  { subst zonemins. destruct (Z.ltb_spec q 0).
    - rewrite int32_small; lia.
    - lia. }
  pose proof (dec_length zonemins 3 ltac:(lia)) as Hdec.
  destruct (Z.ltb_spec zonemins 0) as [?|_]; [lia|].
  assert (Hpow3 : 10 ^ Z.of_nat 3 = 1000) by reflexivity.
  assert (Hpow4 : 10 ^ Z.of_nat 4 = 10000) by reflexivity.
  assert (Hpow2 : 10 ^ Z.of_nat 2 = 100) by reflexivity.
  rewrite !wcslen_app.
  rewrite (fmt_0d_exact 4) by lia.
  rewrite !(fmt_0d_exact 2) by lia.
  change (wcslen "/") with 1%nat. change (wcslen " ") with 1%nat.
  change (wcslen ":") with 1%nat. change (wcslen " UTC") with 4%nat.
  change (wcslen "mins") with 4%nat.
  change (wcslen (fmt_c ?c)) with 1%nat.
  lia.
Qed.

(** X1 -- With calendar values from the clock, [getTimeStamp] fills any
    buffer of at least 32 characters, which is what its comment asks
    for, with a stamp of 29 to 31 characters; a buffer of 29 characters
    or less is always too small and the call takes the bounds-failure
    path. *)
Theorem getTimeStamp_fits (e : Env) (nChars : nat) :
  calendar e ->
  ((32 <= nChars)%nat ->
     exists szStamp,
       getTimeStamp e nChars = Ok szStamp /\ (29 <= wcslen szStamp <= 31)%nat) /\
  ((nChars <= 29)%nat -> getTimeStamp e nChars = InvalidParameter).
Proof.
  intros Hcal. destruct (getTimeStamp_text e Hcal) as (text & Htext & Hlen).
  rewrite Htext. unfold swprintf_s. split; intros Hn.
  - exists text. destruct (Nat.ltb_spec (wcslen text) nChars); [auto | lia].
  - destruct (Nat.ltb_spec (wcslen text) nChars); [lia | reflexivity].
Qed.

Lemma january_is_calendar : calendar january.
Proof. unfold calendar. cbn. lia. Qed.

Lemma getTimeStamp_fits_witness :
  (exists szStamp,
     getTimeStamp january 32 = Ok szStamp /\ (29 <= wcslen szStamp <= 31)%nat) /\
  getTimeStamp january 29 = InvalidParameter.
Proof.
  split.
  - apply (getTimeStamp_fits january 32 january_is_calendar). lia.
  - apply (getTimeStamp_fits january 29 january_is_calendar). lia.
Defined.

(** What an accepted write does when its record line fits [finalmsg]. *)
Lemma writecomposed_ok (e : Env) (level : Z) (tag msg : string) (l : Logger) :
  level <= getLevel l ->
  calendar e ->
  (wcslen (record_line tag (tid e) msg) < MAX_LOG_MESSAGE_LEN + MAX_TAG_LEN + 7)%nat ->
  exists szTime,
    getTimeStamp e 64 = Ok szTime /\
    writecomposed e level tag msg l
    = Ok {| lastmsgtime_ := now e;
            level_ := level_ l;
            events :=
              events l ++
              EvLock ::
              map EvActualWrite
                ((if now e =? lastmsgtime_ l then [] else [szTime; CRLF]) ++
                 [record_line tag (tid e) msg]) ++
              [EvUnlock] |}.
Proof.
  intros Hlevel Hcal Hfit.
  destruct (getTimeStamp_text e Hcal) as (text & Htext & Hlen).
  assert (Hstamp : getTimeStamp e 64 = Ok text).
  { rewrite Htext. unfold swprintf_s.
    destruct (Nat.ltb_spec (wcslen text) 64); [reflexivity | lia]. }
  exists text. split; [exact Hstamp|].
  unfold writecomposed.
  destruct (Z.gtb_spec level (getLevel l)) as [?|_]; [lia|].
  cbn [lastmsgtime_ emit].
  assert (Hrec : swprintf_s (MAX_LOG_MESSAGE_LEN + MAX_TAG_LEN + 7)
                   (record_line tag (tid e) msg)
                 = Ok (record_line tag (tid e) msg)).
  { unfold swprintf_s.
    destruct (Nat.ltb_spec (wcslen (record_line tag (tid e) msg))
                (MAX_LOG_MESSAGE_LEN + MAX_TAG_LEN + 7)); [reflexivity | lia]. }
  rewrite Hrec, Hstamp.
  destruct (Z.eqb_spec (now e) (lastmsgtime_ l)) as [Heq|Hne]; cbn [negb];
    unfold mbind, outcome_bind, bind, set_lastmsgtime, actualwrite, emit; cbn;
    rewrite ?Heq, <- ?app_assoc; reflexivity.
Qed.

(** The width of a record line. *)
Lemma wcslen_record_line (tag : string) (thread : Z) (msg : string) :
  wcslen (record_line tag thread msg)
  = (Nat.max 12 (wcslen tag) + 1 + wcslen (fmt_d 4 (int32 thread)) + 1
     + wcslen msg)%nat.
Proof.
  unfold record_line, fmt_ls. rewrite !wcslen_app, wcslen_pad_right.
  change (wcslen " ") with 1%nat. lia.
Qed.

(** X2 -- A write at a level not above the threshold, with a tag of at
    most 12 and a message of at most 4089 characters, succeeds for every
    thread id when the clock gives calendar values, through the wide and
    the narrow overload alike.  The logger then has taken and released
    its lock once, and between the two it has sent to the sink the time
    stamp and a line end if the second is new, then the record line;
    the bucket is the second of the write and the threshold is as it
    was. *)
Theorem write_accepted (e : Env) (level : Z) (tag msg : string) (l : Logger) :
  level <= getLevel l ->
  calendar e ->
  (wcslen tag <= 12)%nat ->
  (wcslen msg <= 4089)%nat ->
  exists szTime l',
    getTimeStamp e 64 = Ok szTime /\
    write_W e level tag msg l = Ok l' /\
    write_A e level tag msg l = Ok l' /\
    events l'
    = (events l ++
       EvLock ::
       map EvActualWrite
         ((if now e =? lastmsgtime_ l then [] else [szTime; CRLF]) ++
          [record_line tag (tid e) msg]) ++
       [EvUnlock])%list /\
    lastmsgtime_ l' = now e /\
    getLevel l' = getLevel l.
Proof.
  intros Hlevel Hcal Htag Hmsg.
  destruct (writecomposed_ok e level tag msg l Hlevel Hcal) as (szTime & Hstamp & Hrun).
  { rewrite wcslen_record_line. pose proof (fmt_d_int32 (tid e)).
    unfold MAX_LOG_MESSAGE_LEN, MAX_TAG_LEN. lia. }
  exists szTime. eexists. split; [exact Hstamp|].
  split; [exact Hrun|]. split; [|repeat split].
  unfold write_A. rewrite MultiByteToWideChar_fits; [exact Hrun|].
  unfold MAX_LOG_MESSAGE_LEN. lia.
Qed.

Lemma write_accepted_witness :
  exists szTime l',
    getTimeStamp january 64 = Ok szTime /\
    write_W january LOG_LEVEL_ERROR "service" "started" (Logger_new false) = Ok l' /\
    sink l' = [szTime; CRLF; record_line "service" 4242 "started"].
Proof.
  destruct (write_accepted january LOG_LEVEL_ERROR "service" "started"
              (Logger_new false))
    as (szTime & l' & Hstamp & HW & _ & Hev & _).
  - vm_compute. discriminate.
  - exact january_is_calendar.
  - vm_compute. lia.
  - vm_compute. lia.
  - exists szTime, l'. split; [exact Hstamp|]. split; [exact HW|].
    unfold sink. rewrite Hev. reflexivity.
Defined.

Lemma sink_of_writes (texts : list string) :
  sink_of (EvLock :: map EvActualWrite texts ++ [EvUnlock]) = texts.
Proof.
  cbn [sink_of]. rewrite sink_of_app. cbn. rewrite app_nil_r.
  induction texts as [|t texts IH]; cbn; [reflexivity | now rewrite IH].
Qed.

Lemma lock_count_app (a b : list LogEvent) :
  lock_count (a ++ b) = (lock_count a + lock_count b)%nat.
Proof.
  induction a as [|ev a IH]; simpl; [reflexivity|].
  destruct ev; simpl; now rewrite ?IH.
Qed.

Lemma unlock_count_app (a b : list LogEvent) :
  unlock_count (a ++ b) = (unlock_count a + unlock_count b)%nat.
Proof.
  induction a as [|ev a IH]; simpl; [reflexivity|].
  destruct ev; simpl; now rewrite ?IH.
Qed.

(** X3 -- Two accepted writes in one second, from any two threads and
    writers, share one header: the first, made in a new second, sends
    the time stamp, a line end and its record to the sink; the second
    adds its record and nothing else. *)
Theorem header_once_per_second
    (e1 e2 : Env) (level1 level2 : Z) (tag1 msg1 tag2 msg2 : string) (l : Logger) :
  now e2 = now e1 ->
  now e1 <> lastmsgtime_ l ->
  level1 <= getLevel l -> level2 <= getLevel l ->
  calendar e1 -> calendar e2 ->
  (wcslen tag1 <= 12)%nat -> (wcslen msg1 <= 4089)%nat ->
  (wcslen tag2 <= 12)%nat -> (wcslen msg2 <= 4089)%nat ->
  exists szTime l1 l2,
    getTimeStamp e1 64 = Ok szTime /\
    write_W e1 level1 tag1 msg1 l = Ok l1 /\
    write_W e2 level2 tag2 msg2 l1 = Ok l2 /\
    sink l2
    = (sink l ++ [szTime; CRLF; record_line tag1 (tid e1) msg1;
                  record_line tag2 (tid e2) msg2])%list.
Proof.
  intros Hsame Hnew Hl1 Hl2 Hc1 Hc2 Ht1 Hm1 Ht2 Hm2.
  destruct (writecomposed_ok e1 level1 tag1 msg1 l Hl1 Hc1) as (szTime & Hstamp & Hrun1).
  { rewrite wcslen_record_line. pose proof (fmt_d_int32 (tid e1)).
    unfold MAX_LOG_MESSAGE_LEN, MAX_TAG_LEN. lia. }
  set (l1 := {| lastmsgtime_ := now e1; level_ := level_ l; events := _ |}) in Hrun1.
  destruct (writecomposed_ok e2 level2 tag2 msg2 l1 Hl2 Hc2) as (szTime2 & _ & Hrun2).
  { rewrite wcslen_record_line. pose proof (fmt_d_int32 (tid e2)).
    unfold MAX_LOG_MESSAGE_LEN, MAX_TAG_LEN. lia. }
  exists szTime, l1. eexists. unfold write_W.
  split; [exact Hstamp|]. split; [exact Hrun1|]. split; [exact Hrun2|].
  unfold sink. cbn [events l1 lastmsgtime_].
  rewrite Hsame, Z.eqb_refl.
  destruct (Z.eqb_spec (now e1) (lastmsgtime_ l)) as [?|_]; [contradiction|].
  rewrite !sink_of_app, !sink_of_writes, <- app_assoc. reflexivity.
Qed.

Lemma header_once_per_second_witness :
  exists szTime l1 l2,
    getTimeStamp january 64 = Ok szTime /\
    write_W january LOG_LEVEL_ERROR "service" "started" (Logger_new false) = Ok l1 /\
    write_W january LOG_LEVEL_WARNING "worker" "ready" l1 = Ok l2 /\
    sink l2 = [szTime; CRLF; record_line "service" 4242 "started";
               record_line "worker" 4242 "ready"].
Proof.
  apply (header_once_per_second january january LOG_LEVEL_ERROR LOG_LEVEL_WARNING
           "service" "started" "worker" "ready" (Logger_new false));
    try exact january_is_calendar; try reflexivity;
    vm_compute; try discriminate; lia.
Defined.

(** X4 -- Whenever a write comes back, the lock is free again: a
    rejected write has not touched it, an accepted one has taken it
    once and released it once. *)
Theorem write_releases_lock (e : Env) (level : Z) (tag msg : string)
    (l l' : Logger) :
  writecomposed e level tag msg l = Ok l' ->
  lock_count (events l')
  = (lock_count (events l) + (if level >? getLevel l then 0 else 1))%nat /\
  unlock_count (events l')
  = (unlock_count (events l) + (if level >? getLevel l then 0 else 1))%nat.
Proof.
  unfold writecomposed.
  destruct (level >? getLevel l).
  - intros [= <-]. lia.
  - cbn [lastmsgtime_ emit].
    destruct (negb (now e =? lastmsgtime_ l));
      [destruct (getTimeStamp e 64) as [szTime|]; [|discriminate]|];
      unfold mbind, outcome_bind, bind;
      (destruct (swprintf_s _ _) as [finalmsg|]; [|discriminate]);
      intros [= <-];
      unfold set_lastmsgtime, actualwrite, emit; cbn [events];
      rewrite !lock_count_app, !unlock_count_app; cbn; lia.
Qed.

Lemma write_releases_lock_witness :
  exists l',
    writecomposed january LOG_LEVEL_ERROR "service" "started" (Logger_new false)
      = Ok l' /\
    lock_count (events l') = 1%nat /\ unlock_count (events l') = 1%nat.
Proof.
  eexists. split; [vm_compute; reflexivity|].
  apply (write_releases_lock january LOG_LEVEL_ERROR "service" "started"
           (Logger_new false)).
  vm_compute. reflexivity.
Defined.

(** X5 -- Columns of a record line: for a tag of at most 12 characters
    and a thread id below 10000 the line is the tag filled with blanks
    to 12 characters, a blank, the thread id filled with blanks on the
    left to 4 characters, a blank, and the message; so the message
    starts after exactly 18 characters and the records of all writers
    and threads line up. *)
Theorem record_line_columns (tag : string) (thread : Z) (msg : string) :
  (wcslen tag <= 12)%nat ->
  0 <= thread < 10000 ->
  record_line tag thread msg
  = (tag ++ fill " " (12 - wcslen tag)) ++ " " ++
    (fill " " (4 - wcslen (dec thread)) ++ dec thread) ++ " " ++ msg /\
  wcslen (tag ++ fill " " (12 - wcslen tag)) = 12%nat /\
  wcslen (fill " " (4 - wcslen (dec thread)) ++ dec thread) = 4%nat /\
  wcslen (record_line tag thread msg) = (18 + wcslen msg)%nat.
Proof.
  intros Htag Hthread.
  assert (Hnum : wcslen (fmt_d 4 (int32 thread)) = 4%nat).
  { rewrite int32_small by lia. unfold fmt_d. rewrite wcslen_pad_left.
    pose proof (dec_length thread 4 ltac:(lia)) as Hlen.
    assert (Hpow : 10 ^ Z.of_nat 4 = 10000) by reflexivity.
    destruct (Z.ltb_spec thread 0); lia. }
  split; [|split; [|split]].
  - unfold record_line. rewrite int32_small by lia. reflexivity.
  - rewrite wcslen_app, wcslen_fill. lia.
  - rewrite int32_small in Hnum by lia. exact Hnum.
  - rewrite wcslen_record_line, Hnum. lia.
Qed.

Lemma record_line_columns_witness :
  wcslen (record_line "service" 4242 "started") = (18 + wcslen "started")%nat.
Proof.
  destruct (record_line_columns "service" 4242 "started") as (_ & _ & _ & H).
  - vm_compute. lia.
  - lia.
  - exact H.
Defined.

(** The constructor of a writer keeps the tag, and only a tag of at most
    12 characters gets through it. *)
Lemma LogWriter_new_inv (lpszTag : string) (w : LogWriter) :
  LogWriter_new lpszTag = Ok w ->
  szTag_ w = lpszTag /\ (wcslen lpszTag <= 12)%nat.
Proof.
  unfold LogWriter_new, wcscpy_s, MAX_TAG_LEN, mbind, outcome_bind, bind.
  destruct (Nat.ltb_spec (wcslen lpszTag) (12 + 1)); [|discriminate].
  intros [= <-]. split; [reflexivity | lia].
Qed.

(** X6 -- A writer that its constructor has let through never makes the
    logger fail on a thread whose id is below 1000000: whatever the
    format and the arguments render to, an accepted call ends with the
    record line of the tag, the thread and the first 4094 characters of
    the rendering at the sink, after a header if the second is new. *)
Theorem LogWriter_write_never_faults {Args : Type}
    (render : string -> Args -> string) (lpszTag : string) (w : LogWriter)
    (e : Env) (level : Z) (format : string) (args : Args) (l : Logger) :
  LogWriter_new lpszTag = Ok w ->
  level <= getLevel l ->
  calendar e ->
  0 <= tid e < 1000000 ->
  exists szTime l',
    getTimeStamp e 64 = Ok szTime /\
    _write_W render w e level format args l = Ok l' /\
    _write_A render w e level format args l = Ok l' /\
    sink l'
    = (sink l ++
       (if now e =? lastmsgtime_ l then [] else [szTime; CRLF]) ++
       [record_line lpszTag (tid e) (wtake 4094 (render format args))])%list.
Proof.
  intros Hnew Hlevel Hcal Htid.
  destruct (LogWriter_new_inv lpszTag w Hnew) as (Htag & Hlen).
  pose proof (szMsg_of_bounded render format args) as Hmsg.
  unfold MAX_LOG_MESSAGE_LEN in Hmsg.
  destruct (writecomposed_ok e level lpszTag (szMsg_of render format args) l
              Hlevel Hcal) as (szTime & Hstamp & Hrun).
  { rewrite wcslen_record_line, Hmsg.
    assert (Hnum : (wcslen (fmt_d 4 (int32 (tid e))) <= 6)%nat).
    { rewrite int32_small by lia. unfold fmt_d. rewrite wcslen_pad_left.
      pose proof (dec_length (tid e) 6 ltac:(lia)) as Hdec.
      assert (Hpow : 10 ^ Z.of_nat 6 = 1000000) by reflexivity.
      destruct (Z.ltb_spec (tid e) 0); lia. }
    unfold MAX_LOG_MESSAGE_LEN, MAX_TAG_LEN. lia. }
  exists szTime. eexists.
  split; [exact Hstamp|].
  unfold _write_W, _write_A, write_W, write_A. rewrite Htag.
  split; [exact Hrun|]. split.
  - rewrite MultiByteToWideChar_fits; [exact Hrun|].
    rewrite Hmsg. unfold MAX_LOG_MESSAGE_LEN. lia.
  - unfold sink. cbn [events]. rewrite sink_of_app, sink_of_writes. reflexivity.
Qed.

Lemma LogWriter_write_never_faults_witness :
  exists szTime l',
    getTimeStamp january 64 = Ok szTime /\
    _write_W render_s {| szTag_ := "service" |} january LOG_LEVEL_ERROR "%s"
      (fill "x" 5000) (Logger_new false) = Ok l' /\
    sink l' = [szTime; CRLF; record_line "service" 4242 (fill "x" 4094)].
Proof.
  destruct (LogWriter_write_never_faults render_s "service"
              {| szTag_ := "service" |} january LOG_LEVEL_ERROR "%s"
              (fill "x" 5000) (Logger_new false))
    as (szTime & l' & Hstamp & HW & _ & Hsink).
  - reflexivity.
  - vm_compute. discriminate.
  - exact january_is_calendar.
  - cbn. lia.
  - exists szTime, l'. split; [exact Hstamp|]. split; [exact HW|].
    rewrite Hsink. vm_compute. reflexivity.
Defined.

(* ===================================================================== *)
(** ** Rollover on any directory                                          *)
(* ===================================================================== *)

Lemma rolled_name_inv (szPath szName szExt : string) (i : Z) (x : string) :
  rolled_name szPath szName szExt i = Ok x ->
  x = rolled_text szPath szName szExt i /\ fits szPath szName szExt i.
Proof.
  unfold rolled_name, swprintf_s, fits.
  destruct (Nat.ltb_spec (wcslen (rolled_text szPath szName szExt i)) MAX_PATH);
    [|discriminate].
  intros [= <-]. auto.
Qed.

(** A rename, whether it succeeds or not, keeps the contents of the
    directory, and touches its two names at most. *)
Lemma wrename_contents (src dst : string) (fs : Fs) :
  contents (wrename src dst fs) ≡ₚ contents fs.
Proof.
  unfold contents, wrename.
  destruct (files fs !! src) as [c|] eqn:Hsrc; [|reflexivity].
  destruct (files fs !! dst) as [c'|] eqn:Hdst; [reflexivity|].
  cbn [files].
  rewrite map_to_list_insert.
  - rewrite <- (map_to_list_delete (files fs) src c Hsrc). reflexivity.
  - destruct (decide (src = dst)) as [->|Hne];
      [apply lookup_delete_eq | now rewrite lookup_delete_ne].
Qed.

Lemma wrename_frame (src dst f : string) (fs : Fs) :
  f <> src -> f <> dst ->
  files (wrename src dst fs) !! f = files fs !! f.
Proof.
  intros Hs Hd. unfold wrename.
  destruct (files fs !! src), (files fs !! dst); cbn [files]; try reflexivity.
  rewrite lookup_insert_ne by congruence.
  now rewrite lookup_delete_ne by congruence.
Qed.

(** After a rename onto a free name, the source name is free. *)
Lemma wrename_frees (src dst : string) (fs : Fs) :
  src <> dst ->
  files fs !! dst = None ->
  files (wrename src dst fs) !! src = None.
Proof.
  intros Hne Hdst. unfold wrename. rewrite Hdst.
  destruct (files fs !! src) eqn:Hsrc; cbn [files]; [|exact Hsrc].
  rewrite lookup_insert_ne by congruence. apply lookup_delete_eq.
Qed.

Lemma int32_succ_ne (i : Z) : int32 (i + 1) <> i.
Proof.
  unfold int32. intros H.
  pose proof (Z.mod_pos_bound (i + 1 + 2 ^ 31) (2 ^ 32) ltac:(lia)) as Hb.
  assert (Hi : - 2 ^ 31 <= i < 2 ^ 31) by lia.
  destruct (Z.eq_dec i (2 ^ 31 - 1)) as [->|Hmax].
  - vm_compute in H. discriminate.
  - rewrite Z.mod_small in H; lia.
Qed.

Section AnyDirectory.
Variables szPath szName szExt : string.
Abbreviation rolled' := (rolled_text szPath szName szExt).
Abbreviation backup := (fun fuel => backup_rolledfile fuel szPath szName szExt).

(** The three ways a backup that comes back [Ok] can have gone. *)
Lemma backup_rolledfile_Ok_inv (fuel : nat) (index : Z) (fs fs' : Fs) :
  backup (S fuel) index fs = Some (Ok fs') ->
  (files fs !! rolled' index = None /\ fs' = fs) \/
  (is_Some (files fs !! rolled' index) /\
   files fs !! rolled' (int32 (index + 1)) = None /\
   fs' = wrename (rolled' index) (rolled' (int32 (index + 1))) fs) \/
  (is_Some (files fs !! rolled' index) /\
   exists fs1,
     backup fuel (int32 (index + 1)) fs = Some (Ok fs1) /\
     fs' = wrename (rolled' index) (rolled' (int32 (index + 1))) fs1).
Proof.
  cbn [backup_rolledfile].
  destruct (rolled_name szPath szName szExt index) as [x|] eqn:Hx; [|discriminate].
  destruct (rolled_name szPath szName szExt (int32 (index + 1))) as [y|] eqn:Hy;
    [|discriminate].
  apply rolled_name_inv in Hx as [-> _]. apply rolled_name_inv in Hy as [-> _].
  unfold waccess.
  destruct (bool_decide_reflect (is_Some (files fs !! rolled' index))) as [Hsrc|Hsrc].
  - destruct (bool_decide_reflect
                (is_Some (files fs !! rolled' (int32 (index + 1))))) as [Hdst|Hdst].
    + destruct (backup_rolledfile fuel szPath szName szExt (int32 (index + 1)) fs)
        as [[fs1|]|]; try discriminate.
      intros [= <-]. right. right. split; [exact Hsrc|]. now exists fs1.
    + intros [= <-]. right. left. split; [exact Hsrc|]. split; [|reflexivity].
      now apply eq_None_not_Some.
  - intros [= <-]. left. split; [|reflexivity]. now apply eq_None_not_Some.
Qed.

Lemma backup_rolledfile_contents (fuel : nat) :
  forall (index : Z) (fs fs' : Fs),
    backup fuel index fs = Some (Ok fs') -> contents fs' ≡ₚ contents fs.
Proof.
  induction fuel as [|fuel IH]; intros index fs fs' Hrun; [discriminate|].
  apply backup_rolledfile_Ok_inv in Hrun
    as [(_ & ->) | [(_ & _ & ->) | (_ & fs1 & Hrec & ->)]].
  - reflexivity.
  - apply wrename_contents.
  - rewrite wrename_contents. now apply (IH _ _ _ Hrec).
Qed.

Lemma backup_rolledfile_frame (fuel : nat) :
  forall (index : Z) (fs fs' : Fs) (f : string),
    backup fuel index fs = Some (Ok fs') ->
    (forall i, f <> rolled' i) ->
    files fs' !! f = files fs !! f.
Proof.
  induction fuel as [|fuel IH]; intros index fs fs' f Hrun Hf; [discriminate|].
  apply backup_rolledfile_Ok_inv in Hrun
    as [(_ & ->) | [(_ & _ & ->) | (_ & fs1 & Hrec & ->)]].
  - reflexivity.
  - now apply wrename_frame.
  - rewrite wrename_frame by apply Hf. now apply (IH _ _ _ _ Hrec).
Qed.

(** Whatever the directory held, after the backup of [index] the name of
    [index] is free. *)
Lemma backup_rolledfile_frees (fuel : nat) :
  forall (index : Z) (fs fs' : Fs),
    backup fuel index fs = Some (Ok fs') ->
    files fs' !! rolled' index = None.
Proof.
  induction fuel as [|fuel IH]; intros index fs fs' Hrun; [discriminate|].
  assert (Hne : rolled' index <> rolled' (int32 (index + 1))).
  { intros H. apply rolled_text_inj in H. symmetry in H.
    now apply int32_succ_ne in H. }
  apply backup_rolledfile_Ok_inv in Hrun
    as [(Hfree & ->) | [(_ & Hdst & ->) | (_ & fs1 & Hrec & ->)]].
  - exact Hfree.
  - now apply wrename_frees.
  - apply wrename_frees; [exact Hne|]. now apply (IH _ _ _ Hrec).
Qed.

End AnyDirectory.

Section Termination.
Variables szPath szName szExt : string.
Abbreviation rolled'' := (rolled_text szPath szName szExt).

Lemma backup_rolledfile_step (fuel : nat) (index : Z) (fs : Fs) :
  backup_rolledfile (S fuel) szPath szName szExt index fs
  = match rolled_name szPath szName szExt index with
    | InvalidParameter => Some InvalidParameter
    | Ok szRollFile =>
        match rolled_name szPath szName szExt (int32 (index + 1)) with
        | InvalidParameter => Some InvalidParameter
        | Ok szRollFileBackup =>
            if waccess szRollFile fs then
              if waccess szRollFileBackup fs then
                match backup_rolledfile fuel szPath szName szExt
                        (int32 (index + 1)) fs with
                | Some (Ok fs') => Some (Ok (wrename szRollFile szRollFileBackup fs'))
                | other => other
                end
              else Some (Ok (wrename szRollFile szRollFileBackup fs))
            else Some (Ok fs)
        end
    end.
Proof. reflexivity. Qed.

(** More fuel does not change a result. *)
Lemma backup_rolledfile_more_fuel (fuel : nat) :
  forall (index : Z) (fs : Fs) (r : outcome Fs),
    backup_rolledfile fuel szPath szName szExt index fs = Some r ->
    backup_rolledfile (S fuel) szPath szName szExt index fs = Some r.
Proof.
  induction fuel as [|fuel IH]; intros index fs r Hrun; [discriminate|].
  rewrite backup_rolledfile_step in Hrun. rewrite backup_rolledfile_step.
  destruct (rolled_name szPath szName szExt index); [|exact Hrun].
  destruct (rolled_name szPath szName szExt (int32 (index + 1))); [|exact Hrun].
  destruct (waccess _ fs); [|exact Hrun].
  destruct (waccess _ fs); [|exact Hrun].
  destruct (backup_rolledfile fuel szPath szName szExt (int32 (index + 1)) fs)
    as [r1|] eqn:Hrec; [|discriminate].
  rewrite (IH _ _ _ Hrec). exact Hrun.
Qed.

Lemma backup_rolledfile_fuel_le (fuel fuel' : nat) (index : Z) (fs : Fs)
    (r : outcome Fs) :
  (fuel <= fuel')%nat ->
  backup_rolledfile fuel szPath szName szExt index fs = Some r ->
  backup_rolledfile fuel' szPath szName szExt index fs = Some r.
Proof.
  induction 1 as [|fuel' _ IH]; intros Hrun; [exact Hrun|].
  now apply backup_rolledfile_more_fuel, IH.
Qed.

(** The recursion runs out of fuel only on a chain that is as long as
    the fuel. *)
Lemma backup_rolledfile_None (fuel : nat) :
  forall (index : Z) (fs : Fs),
    0 <= index ->
    index + Z.of_nat fuel < 2 ^ 31 ->
    backup_rolledfile fuel szPath szName szExt index fs = None ->
    forall i : nat, (i < fuel)%nat ->
      is_Some (files fs !! rolled'' (index + Z.of_nat i)).
Proof.
  induction fuel as [|fuel IH]; intros index fs Hindex Hmax Hrun i Hi; [lia|].
  cbn [backup_rolledfile] in Hrun.
  rewrite (int32_small (index + 1)) in Hrun by lia.
  destruct (rolled_name szPath szName szExt index) as [x|] eqn:Hx; [|discriminate].
  destruct (rolled_name szPath szName szExt (index + 1)) as [y|] eqn:Hy;
    [|discriminate].
  apply rolled_name_inv in Hx as [-> _]. apply rolled_name_inv in Hy as [-> _].
  unfold waccess in Hrun.
  destruct (bool_decide_reflect (is_Some (files fs !! rolled'' index))) as [Hsrc|];
    [|discriminate].
  destruct (bool_decide_reflect (is_Some (files fs !! rolled'' (index + 1))));
    [|discriminate].
  destruct (backup_rolledfile fuel szPath szName szExt (index + 1) fs)
    as [[?|]|] eqn:Hrec; try discriminate.
  destruct i as [|i].
  - now rewrite Z.add_0_r.
  - replace (index + Z.of_nat (S i)) with (index + 1 + Z.of_nat i) by lia.
    apply (IH (index + 1) fs); [lia | lia | exact Hrec | lia].
Qed.

(** As many rolled files as that are not in the directory. *)
Lemma chain_within_size (index : Z) (n : nat) (fs : Fs) :
  (forall i : nat, (i < n)%nat ->
     is_Some (files fs !! rolled'' (index + Z.of_nat i))) ->
  (n <= size (files fs))%nat.
Proof.
  intros Hall.
  set (name := fun i : nat => rolled'' (index + Z.of_nat i)).
  assert (Hinj : Inj (=) (=) name).
  { intros i j H. apply rolled_text_inj in H. lia. }
  assert (Hdup : NoDup (name <$> seq 0 n)) by (apply NoDup_fmap_2, NoDup_seq; exact Hinj).
  assert (Hsz : size (list_to_set (C := gset string) (name <$> seq 0 n)) = n).
  { rewrite size_list_to_set by exact Hdup. rewrite length_fmap. apply length_seq. }
  rewrite <- Hsz at 1. rewrite <- (size_dom (D := gset string)).
  apply subseteq_size. intros x Hx.
  apply elem_of_list_to_set, list_elem_of_fmap in Hx as (i & -> & Hi).
  apply elem_of_seq in Hi. apply elem_of_dom, Hall. lia.
Qed.

(** With names that fit, the backup does not take the bounds-failure
    path. *)
Lemma backup_rolledfile_no_fault (fuel : nat) :
  forall (index : Z) (fs : Fs),
    0 <= index ->
    index + Z.of_nat fuel < 2 ^ 31 ->
    (forall i, index <= i <= index + Z.of_nat fuel -> fits szPath szName szExt i) ->
    backup_rolledfile fuel szPath szName szExt index fs <> Some InvalidParameter.
Proof.
  induction fuel as [|fuel IH]; intros index fs Hindex Hmax Hfits; [discriminate|].
  cbn [backup_rolledfile].
  rewrite (int32_small (index + 1)) by lia.
  rewrite !rolled_name_fits by (apply Hfits; lia).
  destruct (waccess _ fs); [|discriminate].
  destruct (waccess _ fs); [|discriminate].
  destruct (backup_rolledfile fuel szPath szName szExt (index + 1) fs)
    as [[?|]|] eqn:Hrec; try discriminate.
  exfalso. apply (IH (index + 1) fs); [lia | lia | | exact Hrec].
  intros i Hi. apply Hfits. lia.
Qed.

Lemma backup_rolledfile_total (fuel : nat) (fs : Fs) :
  (size (files fs) < fuel)%nat ->
  Z.of_nat (size (files fs)) + 2 < 2 ^ 31 ->
  (forall i, 1 <= i <= Z.of_nat (size (files fs)) + 2 -> fits szPath szName szExt i) ->
  exists fs', backup_rolledfile fuel szPath szName szExt 1 fs = Some (Ok fs').
Proof.
  intros Hfuel Hmax Hfits.
  set (n := S (size (files fs))).
  destruct (backup_rolledfile n szPath szName szExt 1 fs) as [[fs'|]|] eqn:Hrun.
  - exists fs'. apply (backup_rolledfile_fuel_le n); [lia | exact Hrun].
  - exfalso. apply (backup_rolledfile_no_fault n 1 fs); [lia | lia | | exact Hrun].
    intros i Hi. apply Hfits. lia.
  - exfalso.
    pose proof (backup_rolledfile_None n 1 fs ltac:(lia) ltac:(lia) Hrun) as Hall.
    apply chain_within_size in Hall. lia.
Qed.

End Termination.

Lemma rollover_Ok_inv (fuel : nat) (szPath szName szExt : string) (fs fs' : Fs) :
  rollover fuel szPath szName szExt fs = Some (Ok fs') ->
  exists fs1,
    backup_rolledfile fuel szPath szName szExt 1 fs = Some (Ok fs1) /\
    fs' = wrename (active_name szPath szName szExt)
            (rolled_text szPath szName szExt 1) fs1.
Proof.
  unfold rollover.
  destruct (backup_rolledfile fuel szPath szName szExt 1 fs) as [[fs1|]|];
    try discriminate.
  destruct (rolled_name szPath szName szExt 1) as [x|] eqn:Hx; [|discriminate].
  apply rolled_name_inv in Hx as [-> _].
  intros [= <-]. now exists fs1.
Qed.

Lemma wcslen_rolled_text (szPath szName szExt : string) (i : Z) :
  wcslen (rolled_text szPath szName szExt i)
  = (wcslen (active_name szPath szName szExt) + 1 + wcslen (dec i))%nat.
Proof.
  unfold rolled_text, active_name. rewrite !wcslen_app.
  change (wcslen "_") with 1%nat. lia.
Qed.

(** X7 -- The rollover ends, and ends without a fault, on every
    directory whose rolled names fit their buffers, whatever files it
    holds: the recursion is no deeper than the number of files, so any
    bound above that number is enough. *)
Theorem rollover_total (szPath szName szExt : string) (fs : Fs) (fuel : nat) :
  (size (files fs) < fuel)%nat ->
  Z.of_nat (size (files fs)) + 2 < 2 ^ 31 ->
  (forall i, 1 <= i <= Z.of_nat (size (files fs)) + 2 ->
     fits szPath szName szExt i) ->
  exists fs', rollover fuel szPath szName szExt fs = Some (Ok fs').
Proof.
  intros Hfuel Hmax Hfits.
  destruct (backup_rolledfile_total szPath szName szExt fuel fs Hfuel Hmax Hfits)
    as (fs1 & Hrun).
  unfold rollover. rewrite Hrun.
  rewrite rolled_name_fits by (apply Hfits; lia). eauto.
Qed.

Lemma gapped_fits (i : Z) : 1 <= i <= 6 -> fits "C:\logs\" "demo" ".log" i.
Proof.
  intros Hi. unfold fits. rewrite wcslen_rolled_text.
  pose proof (dec_length i 1 ltac:(lia)) as Hlen.
  assert (Hpow : 10 ^ Z.of_nat 1 = 10) by reflexivity.
  destruct (Z.ltb_spec i 0); [lia|].
  change (wcslen (active_name "C:\logs\" "demo" ".log")) with 16%nat.
  unfold MAX_PATH. lia.
Qed.

Lemma rollover_total_witness :
  exists fs', rollover 5 "C:\logs\" "demo" ".log" gapped = Some (Ok fs').
Proof.
  apply (rollover_total "C:\logs\" "demo" ".log" gapped 5).
  - vm_compute. lia.
  - vm_compute. reflexivity.
  - intros i Hi. apply gapped_fits.
    change (size (files gapped)) with 4%nat in Hi. lia.
Defined.

(** X8 -- A rollover that returns has lost no file and made none: the
    directory holds the same contents as before, each as often as
    before, under as many names. *)
Theorem rollover_keeps_contents (szPath szName szExt : string)
    (fs fs' : Fs) (fuel : nat) :
  rollover fuel szPath szName szExt fs = Some (Ok fs') ->
  contents fs' ≡ₚ contents fs /\
  size (files fs') = size (files fs).
Proof.
  intros Hrun. apply rollover_Ok_inv in Hrun as (fs1 & Hrun & ->).
  assert (Hperm : contents (wrename (active_name szPath szName szExt)
                              (rolled_text szPath szName szExt 1) fs1)
                  ≡ₚ contents fs).
  { rewrite wrename_contents.
    now apply (backup_rolledfile_contents szPath szName szExt fuel 1). }
  split; [exact Hperm|].
  apply Permutation_length in Hperm. unfold contents in Hperm.
  now rewrite !length_fmap, !length_map_to_list in Hperm.
Qed.

Lemma rollover_keeps_contents_witness :
  exists fs',
    rollover 5 "C:\logs\" "demo" ".log" gapped = Some (Ok fs') /\
    size (files fs') = 4%nat.
Proof.
  eexists. split; [vm_compute; reflexivity|].
  apply (rollover_keeps_contents "C:\logs\" "demo" ".log" gapped _ 5).
  vm_compute. reflexivity.
Defined.

(** X9 -- On any directory, with gaps in the chain or without: after a
    rollover that returns, the rolled file 1 holds what the active file
    held and the active name is free; when there was no active file
    the name of the rolled file 1 is left free; and a file that is
    neither the active one nor named like a rolled one is as it was. *)
Theorem rollover_any_directory (szPath szName szExt : string)
    (fs fs' : Fs) (fuel : nat) :
  rollover fuel szPath szName szExt fs = Some (Ok fs') ->
  (forall a,
     files fs !! active_name szPath szName szExt = Some a ->
     files fs' !! rolled_text szPath szName szExt 1 = Some a /\
     files fs' !! active_name szPath szName szExt = None) /\
  (files fs !! active_name szPath szName szExt = None ->
     files fs' !! rolled_text szPath szName szExt 1 = None) /\
  (forall f,
     f <> active_name szPath szName szExt ->
     (forall i, f <> rolled_text szPath szName szExt i) ->
     files fs' !! f = files fs !! f).
Proof.
  intros Hrun. apply rollover_Ok_inv in Hrun as (fs1 & Hrun & ->).
  pose proof (backup_rolledfile_frees szPath szName szExt fuel 1 fs fs1 Hrun) as Hfree.
  assert (Hactive : files fs1 !! active_name szPath szName szExt
                    = files fs !! active_name szPath szName szExt).
  { apply (backup_rolledfile_frame szPath szName szExt fuel 1 fs fs1); [exact Hrun|].
    apply active_name_not_rolled. }
  split; [|split].
  - intros a Ha. rewrite <- Hactive in Ha.
    rewrite (wrename_ok _ _ a) by assumption. cbn [files]. split.
    + apply lookup_insert_eq.
    + rewrite lookup_insert_ne
        by (intros H; symmetry in H; now apply active_name_not_rolled in H).
      apply lookup_delete_eq.
  - intros Hnone. rewrite <- Hactive in Hnone.
    unfold wrename. rewrite Hnone. exact Hfree.
  - intros f Hf Hrolled. rewrite wrename_frame by auto.
    now apply (backup_rolledfile_frame szPath szName szExt fuel 1 fs fs1).
Qed.

Lemma rollover_any_directory_witness :
  exists fs',
    rollover 5 "C:\logs\" "demo" ".log" gapped = Some (Ok fs') /\
    files fs' !! "C:\logs\demo_1.log" = Some "active" /\
    files fs' !! "C:\logs\demo.log" = None.
Proof.
  eexists. split; [vm_compute; reflexivity|].
  apply (rollover_any_directory "C:\logs\" "demo" ".log" gapped _ 5);
    vm_compute; reflexivity.
Defined.

(** X10 -- The rollover formats the names of the rolled files 1 and 2
    before it looks at any file.  So for an active log whose full name
    has 258 characters or more it takes the bounds-failure path on every
    directory, even one with nothing to move; with 257 characters or
    less the names of the rolled files 1 to 9 fit. *)
Theorem rollover_long_path (szPath szName szExt : string) (fs : Fs) (fuel : nat) :
  ((258 <= wcslen (active_name szPath szName szExt))%nat ->
     (0 < fuel)%nat ->
     rollover fuel szPath szName szExt fs = Some InvalidParameter) /\
  ((wcslen (active_name szPath szName szExt) <= 257)%nat ->
     forall i, 1 <= i <= 9 -> fits szPath szName szExt i).
Proof.
  split.
  - intros Hlen Hfuel. destruct fuel as [|fuel]; [lia|].
    unfold rollover. cbn [backup_rolledfile].
    unfold rolled_name at 1, swprintf_s.
    destruct (Nat.ltb_spec (wcslen (rolled_text szPath szName szExt 1)) MAX_PATH)
      as [Hfit|_]; [|reflexivity].
    rewrite wcslen_rolled_text in Hfit. change (wcslen (dec 1)) with 1%nat in Hfit.
    unfold MAX_PATH in Hfit. lia.
  - intros Hlen i Hi. unfold fits. rewrite wcslen_rolled_text.
    pose proof (dec_length i 1 ltac:(lia)) as Hdec.
    assert (Hpow : 10 ^ Z.of_nat 1 = 10) by reflexivity.
    destruct (Z.ltb_spec i 0); [lia|].
    unfold MAX_PATH. lia.
Qed.

Lemma rollover_long_path_witness :
  rollover 1 (fill "d" 250) "demo" ".log" gapped = Some InvalidParameter /\
  fits "C:\logs\" "demo" ".log" 9.
Proof.
  split.
  - apply (rollover_long_path (fill "d" 250) "demo" ".log" gapped 1).
    + vm_compute. lia.
    + lia.
  - apply (rollover_long_path "C:\logs\" "demo" ".log" gapped 1).
    + vm_compute. lia.
    + lia.
Defined.

(** X11 -- The constructor of a file logger: without the roll-up flag
    the directory is left alone; with it, once the constructor's first
    statement is through, the name of the log is free, so the session
    starts on a new file, and no content has been lost; a log that was
    not there means nothing is renamed. *)
Theorem FileLogger_rollup_fresh (szPath szName szExt : string)
    (fs : Fs) (fuel : nat) :
  FileLogger_rollup false fuel szPath szName szExt fs = Some (Ok fs) /\
  (files fs !! active_name szPath szName szExt = None ->
     FileLogger_rollup true fuel szPath szName szExt fs = Some (Ok fs)) /\
  (forall fs',
     FileLogger_rollup true fuel szPath szName szExt fs = Some (Ok fs') ->
     files fs' !! active_name szPath szName szExt = None /\
     contents fs' ≡ₚ contents fs).
Proof.
  unfold FileLogger_rollup. cbn [andb]. split; [reflexivity|]. split.
  - intros Hnone. now rewrite (waccess_None _ _ Hnone).
  - intros fs'.
    destruct (files fs !! active_name szPath szName szExt) as [a|] eqn:Ha.
    + rewrite (waccess_Some _ _ _ Ha). intros Hrun. split.
      * apply rollover_Ok_inv in Hrun as (fs1 & Hrun & ->).
        assert (Hactive : files fs1 !! active_name szPath szName szExt = Some a).
        { rewrite (backup_rolledfile_frame szPath szName szExt fuel 1 fs fs1);
            [exact Ha | exact Hrun | apply active_name_not_rolled]. }
        apply wrename_frees.
        -- apply active_name_not_rolled.
        -- now apply (backup_rolledfile_frees szPath szName szExt fuel 1 fs).
      * apply rollover_Ok_inv in Hrun as (fs1 & Hrun & ->).
        rewrite wrename_contents.
        now apply (backup_rolledfile_contents szPath szName szExt fuel 1).
    + rewrite (waccess_None _ _ Ha). intros [= <-]. split; [exact Ha | reflexivity].
Qed.

Lemma FileLogger_rollup_fresh_witness :
  exists fs',
    FileLogger_rollup true 5 "C:\logs\" "demo" ".log" gapped = Some (Ok fs') /\
    files fs' !! "C:\logs\demo.log" = None.
Proof.
  eexists. split; [vm_compute; reflexivity|].
  apply (FileLogger_rollup_fresh "C:\logs\" "demo" ".log" gapped 5).
  vm_compute. reflexivity.
Defined.

(* ===================================================================== *)
(** ** The service: handlers, the work body, the life cycle               *)
(* ===================================================================== *)

Lemma deliver_stop (d : Delivery) (s : Service) :
  stop_request d -> deliver d s = onStop s.
Proof. intros []; reflexivity. Qed.

Lemma serviceControlHandlerEx_other (dwControl dwEventType : Z) (s : Service) :
  dwControl <> SERVICE_CONTROL_STOP ->
  serviceControlHandlerEx dwControl dwEventType s = (NO_ERROR, s).
Proof.
  intros Hne. unfold serviceControlHandlerEx.
  destruct (Z.eqb_spec dwControl SERVICE_CONTROL_STOP) as [?|_]; [contradiction|].
  unfold onPause, onContinue, onInterrogate, onPreShutdown, onShutdown,
    onDeviceEvent, onHardwareProfileChange, onSessionChange, onPowerEvent,
    onUnknownRequest.
  repeat (match goal with |- context [if ?b then _ else _] => destruct b end);
    reflexivity.
Qed.

Lemma deliver_not_stop (d : Delivery) (s : Service) :
  ~ stop_request d -> deliver d s = s.
Proof.
  intros Hno. destruct d as [c t|c]; cbn [deliver].
  - rewrite serviceControlHandlerEx_other; [reflexivity|].
    intros ->. apply Hno. constructor.
  - unfold consoleCtrlHandler.
    destruct (Z.eqb_spec c CTRL_C_EVENT) as [->|_]; [elim Hno; constructor|].
    destruct (Z.eqb_spec c CTRL_BREAK_EVENT) as [->|_]; [elim Hno; constructor|].
    destruct (Z.eqb_spec c CTRL_SHUTDOWN_EVENT) as [->|_]; [elim Hno; constructor|].
    reflexivity.
Qed.

Lemma stop_request_dec (d : Delivery) : {stop_request d} + {~ stop_request d}.
Proof.
  destruct d as [c t|c].
  - destruct (Z.eq_dec c SERVICE_CONTROL_STOP) as [->|Hne];
      [left; apply stop_control | right; intros H; inversion H; congruence].
  - destruct (Z.eq_dec c CTRL_C_EVENT) as [->|H0]; [left; apply stop_ctrl_c|].
    destruct (Z.eq_dec c CTRL_BREAK_EVENT) as [->|H1]; [left; apply stop_ctrl_break|].
    destruct (Z.eq_dec c CTRL_SHUTDOWN_EVENT) as [->|H6];
      [left; apply stop_ctrl_shutdown|].
    right. intros H. inversion H; congruence.
Qed.

(** X12 -- Of all control codes only Stop does anything by default:
    Pause, Continue, Interrogate, Shutdown, PreShutdown, the device,
    profile, session and power notifications and every unknown code are
    answered with [NO_ERROR] and leave the service exactly as it was;
    in particular a system shutdown does not stop the work body. *)
Theorem controls_other_than_stop_ignored (dwControl dwEventType : Z) (s : Service) :
  dwControl <> SERVICE_CONTROL_STOP ->
  serviceControlHandlerEx dwControl dwEventType s = (NO_ERROR, s) /\
  deliver (Control dwControl dwEventType) s = s.
Proof.
  intros Hne. split.
  - now apply serviceControlHandlerEx_other.
  - apply deliver_not_stop. intros H. inversion H. congruence.
Qed.

Lemma controls_other_than_stop_ignored_witness :
  serviceControlHandlerEx SERVICE_CONTROL_SHUTDOWN 0 demo_running
  = (NO_ERROR, demo_running).
Proof.
  apply (controls_other_than_stop_ignored SERVICE_CONTROL_SHUTDOWN 0 demo_running).
  vm_compute. discriminate.
Defined.

(** The wait ends at the first stop request and not before. *)
Lemma wait_until_stop (pending : list Delivery) (s : Service) :
  hEventQuit_ s = false ->
  Exists stop_request pending ->
  WaitForSingleObject pending s = Some (onStop s).
Proof.
  intros Hq Hex. induction pending as [|d pending IH]; [inversion Hex|].
  cbn [WaitForSingleObject]. rewrite Hq.
  destruct (stop_request_dec d) as [Hd|Hd].
  - rewrite (deliver_stop d s Hd).
    destruct pending; cbn [WaitForSingleObject];
      now rewrite (proj2 (onStop_state s)).
  - rewrite (deliver_not_stop d s Hd). apply IH.
    inversion Hex; [contradiction | assumption].
Qed.

Lemma wait_for_ever (pending : list Delivery) (s : Service) :
  hEventQuit_ s = false ->
  ~ Exists stop_request pending ->
  WaitForSingleObject pending s = None.
Proof.
  intros Hq Hno. induction pending as [|d pending IH];
    cbn [WaitForSingleObject]; rewrite Hq; [reflexivity|].
  rewrite deliver_not_stop by (intros Hd; apply Hno; now left).
  apply IH. intros Hex. apply Hno. now right.
Qed.

Lemma wait_signalled (pending : list Delivery) (s : Service) :
  hEventQuit_ s = true -> WaitForSingleObject pending s = Some s.
Proof. intros Hq. destruct pending; cbn [WaitForSingleObject]; now rewrite Hq. Qed.

Lemma Exists_stop_request_dec (pending : list Delivery) :
  {Exists stop_request pending} + {~ Exists stop_request pending}.
Proof. apply Exists_dec, stop_request_dec. Qed.

(** X13 -- The default work body returns exactly when the quit event is
    already set or a stop request (the Stop control, Ctrl+C, Ctrl+Break,
    console shutdown) is among what is delivered while it waits; no
    other delivery wakes it.  When it returns, it returns 0 with the
    quit event set. *)
Theorem run_returns_iff_stop (pending : list Delivery) (s : Service) :
  (is_Some (run pending s) <->
     hEventQuit_ s = true \/ Exists stop_request pending) /\
  (forall ret s', run pending s = Some (ret, s') ->
     ret = 0 /\ hEventQuit_ s' = true).
Proof.
  unfold run.
  destruct (setServiceStatus_frame SERVICE_RUNNING s) as (Hq & _).
  set (s1 := setServiceStatus SERVICE_RUNNING s) in *.
  destruct (hEventQuit_ s) eqn:Hquit.
  - rewrite (wait_signalled pending s1 Hq). cbn. split.
    + split; [auto | intros _; eauto].
    + intros ret s' [= <- <-]. auto.
  - destruct (Exists_stop_request_dec pending) as [Hex|Hno].
    + rewrite (wait_until_stop pending s1 Hq Hex). cbn. split.
      * split; [auto | intros _; eauto].
      * intros ret s' [= <- <-]. split; [reflexivity | apply onStop_state].
    + rewrite (wait_for_ever pending s1 Hq Hno). cbn. split.
      * split; [intros [? ?]; discriminate | intros [?|?]; [discriminate | contradiction]].
      * intros ret s' ?. discriminate.
Qed.

Lemma run_returns_iff_stop_witness :
  is_Some (run [Control SERVICE_CONTROL_PAUSE 0; Console CTRL_BREAK_EVENT] demo) /\
  run [Control SERVICE_CONTROL_PAUSE 0; Control SERVICE_CONTROL_SHUTDOWN 0] demo = None.
Proof.
  split.
  - apply (run_returns_iff_stop
             [Control SERVICE_CONTROL_PAUSE 0; Console CTRL_BREAK_EVENT] demo).
    right. right. left. constructor.
  - destruct (run [Control SERVICE_CONTROL_PAUSE 0;
                   Control SERVICE_CONTROL_SHUTDOWN 0] demo) as [r|] eqn:Hrun;
      [|reflexivity].
    exfalso.
    assert (Hsome : is_Some (run [Control SERVICE_CONTROL_PAUSE 0;
                                  Control SERVICE_CONTROL_SHUTDOWN 0] demo))
      by (rewrite Hrun; eauto).
    apply (run_returns_iff_stop [Control SERVICE_CONTROL_PAUSE 0;
                                 Control SERVICE_CONTROL_SHUTDOWN 0] demo) in Hsome.
    destruct Hsome as [Hq | Hex]; [discriminate|].
    inversion Hex as [? ? H | ? ? H]; [inversion H|].
    inversion H as [? ? H' | ? ? H']; [inversion H' | inversion H'].
Defined.

Lemma reported_states_app (a b : list SysCall) :
  reported_states (a ++ b) = (reported_states a ++ reported_states b)%list.
Proof.
  induction a as [|c a IH]; simpl; [reflexivity|].
  destruct c; simpl; now rewrite ?IH.
Qed.

(** The entry sequence from the point where the handlers are in place. *)
Lemma serviceMain_work_entry (body : WorkBody) (h : Host) (s : Service) :
  fDebugMode_ s = true \/ hRegistered h <> 0 ->
  serviceMain body h s
  = match body (work_entry h s) with
    | Some (ret, s2) =>
        Some (setServiceStatus SERVICE_STOPPED
                (with_status (set_dwWin32ExitCode ret (status_ s2)) s2))
    | None => None
    end.
Proof.
  intros Hmode. destruct s as [nm hd q st dbg lg cs].
  unfold serviceMain, work_entry, isDebugMode.
  destruct dbg; cbn -[setServiceStatus Z.eqb].
  - destruct (body _) as [[ret s2]|]; reflexivity.
  - destruct Hmode as [Hc | Hreg]; [discriminate|].
    destruct (Z.eqb_spec (hRegistered h) 0) as [?|_]; [contradiction|].
    destruct (body _) as [[ret s2]|]; reflexivity.
Qed.

Lemma work_entry_fields (h : Host) (s : Service) :
  dwCurrentState (status_ (work_entry h s)) = SERVICE_START_PENDING /\
  dwControlsAccepted (status_ (work_entry h s)) = 0 /\
  dwWin32ExitCode (status_ (work_entry h s)) = S_OK /\
  dwCheckPoint (status_ (work_entry h s)) = 0 /\
  dwWaitHint (status_ (work_entry h s)) = 0 /\
  hEventQuit_ (work_entry h s) = hEventQuit_ s /\
  fDebugMode_ (work_entry h s) = fDebugMode_ s /\
  hServiceStatus_ (work_entry h s)
  = (if fDebugMode_ s then hServiceStatus_ s else hRegistered h) /\
  calls (work_entry h s)
  = (calls s ++
     (if fDebugMode_ s
      then [CallSetConsoleCtrlHandler;
            CallPutws "Press Ctrl+C or Ctrl+Break to quit..."]
      else [CallRegisterServiceCtrlHandlerEx (szServiceName_ s);
            CallSetServiceStatus (hRegistered h)
              (set_dwControlsAccepted 0
                 (set_dwCurrentState SERVICE_START_PENDING (status_ s)))]))%list.
Proof.
  destruct s as [nm hd q st dbg lg cs].
  unfold work_entry, isDebugMode, setServiceStatus.
  destruct dbg; cbn; rewrite <- ?app_assoc; repeat split; reflexivity.
Qed.

(** X14 -- What the entry sequence promises a work body, default or
    overridden, once the handlers are in place: the body starts in the
    state StartPending with no control accepted, the exit code [S_OK],
    check point and wait hint 0; if it does not return, neither does
    the entry sequence; if it returns, its value becomes the exit code,
    the state becomes Stopped, and in service mode the last call made
    is the report of exactly this status to the dispatcher, in which
    the Stop control is still marked as accepted. *)
Theorem work_body_contract (body : WorkBody) (h : Host) (s : Service) :
  fDebugMode_ s = true \/ hRegistered h <> 0 ->
  (dwCurrentState (status_ (work_entry h s)) = SERVICE_START_PENDING /\
   dwControlsAccepted (status_ (work_entry h s)) = 0 /\
   dwWin32ExitCode (status_ (work_entry h s)) = S_OK /\
   dwCheckPoint (status_ (work_entry h s)) = 0 /\
   dwWaitHint (status_ (work_entry h s)) = 0) /\
  (body (work_entry h s) = None -> serviceMain body h s = None) /\
  (forall ret s2,
     body (work_entry h s) = Some (ret, s2) ->
     exists s',
       serviceMain body h s = Some s' /\
       dwCurrentState (status_ s') = SERVICE_STOPPED /\
       dwWin32ExitCode (status_ s') = ret /\
       accepts_stop (status_ s') = true /\
       (fDebugMode_ s2 = false ->
          last (calls s') = Some (CallSetServiceStatus (hServiceStatus_ s2) (status_ s'))) /\
       (fDebugMode_ s2 = true -> calls s' = calls s2)).
Proof.
  intros Hmode. rewrite (serviceMain_work_entry body h s Hmode).
  destruct (work_entry_fields h s) as (H1 & H2 & H3 & H4 & H5 & _).
  split; [auto|]. split; [intros ->; reflexivity|].
  intros ret s2 ->. eexists. split; [reflexivity|].
  rewrite setServiceStatus_status, setServiceStatus_calls.
  cbn [status_ with_status dwCurrentState dwWin32ExitCode set_dwControlsAccepted
         set_dwCurrentState set_dwWin32ExitCode fDebugMode_ calls hServiceStatus_].
  split; [reflexivity|]. split; [reflexivity|]. split.
  - unfold accepts_stop. cbn.
    destruct (Z.eqb_spec (Z.land (Z.lor (dwControlsAccepted (status_ s2))
                                    SERVICE_ACCEPT_STOP) SERVICE_ACCEPT_STOP) 0)
      as [H0|_]; [now apply lor_accept_stop in H0 | reflexivity].
  - split; intros ->.
    + rewrite last_snoc. rewrite setServiceStatus_status. reflexivity.
    + now rewrite app_nil_r.
Qed.

Lemma work_body_contract_witness :
  exists s',
    serviceMain body_seven host_service demo = Some s' /\
    dwCurrentState (status_ s') = SERVICE_STOPPED /\
    dwWin32ExitCode (status_ s') = 7.
Proof.
  destruct (work_body_contract body_seven host_service demo)
    as (_ & _ & Hret).
  - right. vm_compute. discriminate.
  - destruct (Hret 7 (work_entry host_service demo) eq_refl)
      as (s' & Hrun & Hstate & Hcode & _).
    exists s'. auto.
Defined.

(** X15 -- The life of the default service under the dispatcher: with
    the handler registered and a stop request among the deliveries, the
    entry sequence ends, and the states it has reported are, in this
    order, StartPending, Running, StopPending and Stopped; the quit
    event was set by one call, and the exit code is 0.  Deliveries
    before the stop request change nothing, those after it are not
    looked at. *)
Theorem service_life_cycle (pending : list Delivery) (h : Host) (s : Service) :
  fDebugMode_ s = false ->
  hRegistered h <> 0 ->
  hEventQuit_ s = false ->
  Exists stop_request pending ->
  exists s',
    serviceMain (run pending) h s = Some s' /\
    reported_states (calls s')
    = (reported_states (calls s) ++
       [SERVICE_START_PENDING; SERVICE_RUNNING;
        SERVICE_STOP_PENDING; SERVICE_STOPPED])%list /\
    count_SetEvent (calls s') = S (count_SetEvent (calls s)) /\
    dwCurrentState (status_ s') = SERVICE_STOPPED /\
    dwWin32ExitCode (status_ s') = 0 /\
    hEventQuit_ s' = true.
Proof.
  intros Hd Hreg Hq Hex.
  rewrite (serviceMain_work_entry (run pending) h s (or_intror Hreg)).
  destruct (work_entry_fields h s) as (_ & _ & _ & _ & _ & Hqw & Hdw & _ & Hcw).
  rewrite Hd in Hdw, Hcw. rewrite Hq in Hqw.
  set (w := work_entry h s) in *.
  destruct (setServiceStatus_frame SERVICE_RUNNING w) as (Hqr & Hdr & _).
  pose proof (setServiceStatus_calls SERVICE_RUNNING w) as Hcr.
  pose proof (setServiceStatus_status SERVICE_RUNNING w) as Hsr.
  rewrite Hdw in Hcr, Hdr. rewrite Hqw in Hqr.
  set (r := setServiceStatus SERVICE_RUNNING w) in *.
  unfold run. fold r. rewrite (wait_until_stop pending r Hqr Hex).
  cbn [mbind option_bind].
  pose proof (onStop_calls r) as Hcx. rewrite Hdr in Hcx.
  destruct (onStop_state r) as (Hsx & Hqx).
  destruct (onStop_frame r) as (Hdx & _). rewrite Hdr in Hdx.
  set (x := onStop r) in *.
  set (y := with_status (set_dwWin32ExitCode 0 (status_ x)) x).
  assert (Hdy : fDebugMode_ y = false) by exact Hdx.
  assert (Hcy : calls y = calls x) by reflexivity.
  pose proof (setServiceStatus_calls SERVICE_STOPPED y) as Hcs.
  pose proof (setServiceStatus_status SERVICE_STOPPED y) as Hss.
  destruct (setServiceStatus_frame SERVICE_STOPPED y) as (Hqs & _).
  rewrite Hdy in Hcs.
  eexists. split; [reflexivity|].
  set (s' := setServiceStatus SERVICE_STOPPED y) in *.
  assert (Hstate_r : dwCurrentState (status_ r) = SERVICE_RUNNING)
    by (rewrite Hsr; reflexivity).
  assert (Hstate_s : dwCurrentState (status_ s') = SERVICE_STOPPED)
    by (rewrite Hss; reflexivity).
  assert (Hcode_s : dwWin32ExitCode (status_ s') = 0)
    by (rewrite Hss; reflexivity).
  split; [|split; [|split; [exact Hstate_s | split; [exact Hcode_s|]]]].
  - rewrite Hcs, Hcy, Hcx, Hcr, Hcw.
    rewrite !reported_states_app. cbn [reported_states app].
    rewrite Hstate_r, Hsx, Hstate_s, <- !app_assoc. reflexivity.
  - rewrite Hcs, Hcy, Hcx, Hcr, Hcw.
    rewrite !count_SetEvent_app. cbn [count_SetEvent]. lia.
  - rewrite Hqs. exact Hqx.
Qed.

Lemma service_life_cycle_witness :
  exists s',
    serviceMain (run [Control SERVICE_CONTROL_INTERROGATE 0;
                      Control SERVICE_CONTROL_STOP 0;
                      Control SERVICE_CONTROL_PAUSE 0]) host_service demo
    = Some s' /\
    reported_states (calls s')
    = [SERVICE_START_PENDING; SERVICE_RUNNING;
       SERVICE_STOP_PENDING; SERVICE_STOPPED].
Proof.
  destruct (service_life_cycle [Control SERVICE_CONTROL_INTERROGATE 0;
                                Control SERVICE_CONTROL_STOP 0;
                                Control SERVICE_CONTROL_PAUSE 0]
              host_service demo) as (s' & Hrun & Hstates & _).
  - reflexivity.
  - vm_compute. discriminate.
  - reflexivity.
  - right. left. apply stop_control.
  - exists s'. split; [exact Hrun | exact Hstates].
Defined.

(** What one operation from outside leaves alone. *)
Lemma apply_op_frame (o : Op) (s : Service) :
  szServiceName_ (apply_op o s) = szServiceName_ s /\
  hServiceStatus_ (apply_op o s) = hServiceStatus_ s /\
  fDebugMode_ (apply_op o s) = fDebugMode_ s /\
  logger_ (apply_op o s) = logger_ s /\
  dwServiceType (status_ (apply_op o s)) = dwServiceType (status_ s) /\
  dwWin32ExitCode (status_ (apply_op o s)) = dwWin32ExitCode (status_ s) /\
  dwServiceSpecificExitCode (status_ (apply_op o s))
  = dwServiceSpecificExitCode (status_ s) /\
  dwCheckPoint (status_ (apply_op o s)) = dwCheckPoint (status_ s) /\
  dwWaitHint (status_ (apply_op o s)) = dwWaitHint (status_ s).
Proof.
  assert (Hset : forall dwState,
            szServiceName_ (setServiceStatus dwState s) = szServiceName_ s /\
            hServiceStatus_ (setServiceStatus dwState s) = hServiceStatus_ s /\
            fDebugMode_ (setServiceStatus dwState s) = fDebugMode_ s /\
            logger_ (setServiceStatus dwState s) = logger_ s /\
            dwServiceType (status_ (setServiceStatus dwState s))
            = dwServiceType (status_ s) /\
            dwWin32ExitCode (status_ (setServiceStatus dwState s))
            = dwWin32ExitCode (status_ s) /\
            dwServiceSpecificExitCode (status_ (setServiceStatus dwState s))
            = dwServiceSpecificExitCode (status_ s) /\
            dwCheckPoint (status_ (setServiceStatus dwState s))
            = dwCheckPoint (status_ s) /\
            dwWaitHint (status_ (setServiceStatus dwState s))
            = dwWaitHint (status_ s)).
  { intros dwState. destruct s as [nm hd q st dbg lg cs].
    unfold setServiceStatus, isDebugMode. cbn.
    destruct (dwState =? SERVICE_START_PENDING), dbg; repeat split; reflexivity. }
  destruct o as [dwState|d]; cbn [apply_op]; [apply Hset|].
  destruct (deliver_cases d s) as [-> | ->]; [repeat split; reflexivity|].
  unfold onStop, SetEvent.
  cbn [szServiceName_ hServiceStatus_ fDebugMode_ logger_ status_ call with_quit].
  apply Hset.
Qed.

Lemma apply_ops_snoc (ops : list Op) (o : Op) (s : Service) :
  apply_ops (ops ++ [o]) s = apply_op o (apply_ops ops s).
Proof. unfold apply_ops. now rewrite fold_left_app. Qed.

(** X16 -- Whatever is asked of the controller from outside, state
    changes and deliveries in any number and order, its name, its
    status handle, its run mode and its logger stay as they are, and so
    do the service type, both exit codes, the check point and the wait
    hint of its status: only the state and the accepted controls move. *)
Theorem ops_frame (ops : list Op) (s : Service) :
  szServiceName_ (apply_ops ops s) = szServiceName_ s /\
  hServiceStatus_ (apply_ops ops s) = hServiceStatus_ s /\
  fDebugMode_ (apply_ops ops s) = fDebugMode_ s /\
  logger_ (apply_ops ops s) = logger_ s /\
  dwServiceType (status_ (apply_ops ops s)) = dwServiceType (status_ s) /\
  dwWin32ExitCode (status_ (apply_ops ops s)) = dwWin32ExitCode (status_ s) /\
  dwServiceSpecificExitCode (status_ (apply_ops ops s))
  = dwServiceSpecificExitCode (status_ s) /\
  dwCheckPoint (status_ (apply_ops ops s)) = dwCheckPoint (status_ s) /\
  dwWaitHint (status_ (apply_ops ops s)) = dwWaitHint (status_ s).
Proof.
  induction ops as [|o ops IH] using rev_ind; [repeat split; reflexivity|].
  rewrite apply_ops_snoc.
  destruct (apply_op_frame o (apply_ops ops s))
    as (-> & -> & -> & -> & -> & -> & -> & -> & ->).
  exact IH.
Qed.

Lemma apply_ops_debug (ops : list Op) (s : Service) :
  fDebugMode_ (apply_ops ops s) = fDebugMode_ s.
Proof.
  induction ops as [|o ops IH] using rev_ind; [reflexivity|].
  rewrite apply_ops_snoc.
  destruct (apply_op_frame o (apply_ops ops s)) as (_ & _ & -> & _). exact IH.
Qed.

Lemma apply_op_quit (o : Op) (s : Service) :
  hEventQuit_ (apply_op o s) = true <-> hEventQuit_ s = true \/ stops o.
Proof.
  destruct o as [dwState|d]; cbn [apply_op].
  - destruct (setServiceStatus_frame dwState s) as (-> & _).
    split; [auto | intros [?|(d & Hd & _)]; [assumption | discriminate]].
  - destruct (stop_request_dec d) as [Hd|Hd].
    + rewrite (deliver_stop d s Hd). split; [|intros _; apply onStop_state].
      intros _. right. now exists d.
    + rewrite (deliver_not_stop d s Hd). split; [auto|].
      intros [?|(d' & [= <-] & Hd')]; [assumption | contradiction].
Qed.

(** X17 -- The quit event is set by stop requests and by nothing else,
    and nothing resets it: after any sequence of state changes and
    deliveries it is set exactly when it was set before or a stop
    request was among the deliveries. *)
Theorem quit_event_set_by_stop_only (ops : list Op) (s : Service) :
  hEventQuit_ (apply_ops ops s) = true <->
  hEventQuit_ s = true \/ Exists stops ops.
Proof.
  induction ops as [|o ops IH] using rev_ind.
  - cbn. split; [auto | intros [?|H]; [assumption | inversion H]].
  - rewrite apply_ops_snoc, apply_op_quit, IH, Exists_app, Exists_cons, Exists_nil.
    tauto.
Qed.

(** X18 -- In debug mode nothing is ever reported to the dispatcher:
    through any sequence of state changes and deliveries, and through a
    whole run of [start] with the default work body, the number of
    [::SetServiceStatus] calls stays what it was. *)
Theorem debug_mode_never_reports (s : Service) :
  (forall ops,
     fDebugMode_ s = true ->
     count_SetServiceStatus (calls (apply_ops ops s))
     = count_SetServiceStatus (calls s)) /\
  (forall pending h ret s',
     debug_requested h s = true ->
     start (run pending) h s = Some (ret, s') ->
     count_SetServiceStatus (calls s') = count_SetServiceStatus (calls s)).
Proof.
  assert (Hset : forall dwState x,
            fDebugMode_ x = true ->
            calls (setServiceStatus dwState x) = calls x).
  { intros dwState x Hx. rewrite setServiceStatus_calls, Hx. apply app_nil_r. }
  assert (Hstop : forall x,
            fDebugMode_ x = true ->
            count_SetServiceStatus (calls (onStop x))
            = count_SetServiceStatus (calls x)).
  { intros x Hx. rewrite onStop_calls, Hx, !count_SetServiceStatus_app. cbn. lia. }
  split.
  - intros ops Hd. induction ops as [|o ops IH] using rev_ind; [reflexivity|].
    rewrite apply_ops_snoc, <- IH.
    pose proof (apply_ops_debug ops s) as Hdbg. rewrite Hd in Hdbg.
    destruct o as [dwState|d]; cbn [apply_op].
    + now rewrite Hset.
    + destruct (deliver_cases d (apply_ops ops s)) as [-> | ->];
        [reflexivity | now apply Hstop].
  - intros pending h ret s' Hdbg. unfold debug_requested in Hdbg.
    unfold start. rewrite scan_args_with_debug, Hdbg.
    cbn [fDebugMode_ with_debug].
    rewrite serviceMain_work_entry by (left; reflexivity).
    set (s0 := with_debug true s).
    destruct (work_entry_fields h s0) as (_ & _ & _ & _ & _ & Hq0 & Hd0 & _ & Hc0).
    change (fDebugMode_ s0) with true in Hd0, Hc0.
    unfold run.
    destruct (setServiceStatus_frame SERVICE_RUNNING (work_entry h s0))
      as (Hq1 & Hd1 & _).
    pose proof (Hset SERVICE_RUNNING (work_entry h s0) Hd0) as Hc1.
    set (s1 := setServiceStatus SERVICE_RUNNING (work_entry h s0)) in *.
    assert (Hcount1 : count_SetServiceStatus (calls s1)
                      = count_SetServiceStatus (calls s)).
    { rewrite Hc1, Hc0, count_SetServiceStatus_app. cbn.
      destruct s; cbn. lia. }
    assert (Hdone : forall s2,
              fDebugMode_ s2 = true ->
              count_SetServiceStatus (calls s2) = count_SetServiceStatus (calls s) ->
              forall ret' s'',
                Some (dwWin32ExitCode
                        (status_ (setServiceStatus SERVICE_STOPPED
                                    (with_status (set_dwWin32ExitCode 0 (status_ s2)) s2))),
                      setServiceStatus SERVICE_STOPPED
                        (with_status (set_dwWin32ExitCode 0 (status_ s2)) s2))
                = Some (ret', s'') ->
                count_SetServiceStatus (calls s'') = count_SetServiceStatus (calls s)).
    { intros s2 Hd2 Hc2 ret' s'' [= _ <-]. rewrite Hset; [exact Hc2|].
      destruct s2; exact Hd2. }
    destruct (hEventQuit_ s1) eqn:Hquit.
    + rewrite (wait_signalled pending s1 Hquit). cbn [mbind option_bind].
      apply Hdone; [now rewrite Hd1 | exact Hcount1].
    + destruct (Exists_stop_request_dec pending) as [Hex|Hno].
      * rewrite (wait_until_stop pending s1 Hquit Hex). cbn [mbind option_bind].
        apply Hdone.
        -- destruct (onStop_frame s1) as (-> & _). now rewrite Hd1.
        -- rewrite Hstop; [exact Hcount1 | now rewrite Hd1].
      * rewrite (wait_for_ever pending s1 Hquit Hno). discriminate.
Qed.

Lemma debug_mode_never_reports_witness :
  count_SetServiceStatus
    (calls (apply_ops [OpSetState SERVICE_PAUSED; OpDeliver (Console CTRL_C_EVENT)]
              demo_running_debug))
  = count_SetServiceStatus (calls demo_running_debug).
Proof.
  apply (debug_mode_never_reports demo_running_debug). reflexivity.
Defined.

(** X19 -- The constructor copies the service name into
    [szServiceName_[128]]: a name of at most 127 characters gives a
    controller that is Stopped, accepts no control, has its quit event
    unset and is not in debug mode; a longer name takes the
    bounds-failure path of the copy. *)
Theorem TConsoleService_name_bound (lpszServiceName : string) (logger : Logger) :
  ((wcslen lpszServiceName <= 127)%nat ->
     exists s,
       TConsoleService lpszServiceName logger = Ok s /\
       szServiceName_ s = lpszServiceName /\
       dwCurrentState (status_ s) = SERVICE_STOPPED /\
       dwControlsAccepted (status_ s) = 0 /\
       hEventQuit_ s = false /\
       fDebugMode_ s = false /\
       logger_ s = logger /\
       calls s = []) /\
  ((128 <= wcslen lpszServiceName)%nat ->
     TConsoleService lpszServiceName logger = InvalidParameter).
Proof.
  unfold TConsoleService, wcscpy_s, mbind, outcome_bind, bind.
  split; intros Hlen;
    destruct (Nat.ltb_spec (wcslen lpszServiceName) 128); try lia;
    [eexists; repeat split | reflexivity].
Qed.

Lemma TConsoleService_name_bound_witness :
  (exists s, TConsoleService "demo" (Logger_new false) = Ok s /\
             dwCurrentState (status_ s) = SERVICE_STOPPED) /\
  TConsoleService (fill "n" 128) (Logger_new false) = InvalidParameter.
Proof.
  split.
  - destruct (proj1 (TConsoleService_name_bound "demo" (Logger_new false)))
      as (s & Hnew & _ & Hstate & _); [vm_compute; lia|].
    exists s. auto.
  - apply (proj2 (TConsoleService_name_bound (fill "n" 128) (Logger_new false))).
    vm_compute. lia.
Defined.





(* ===================================================================== *)
(** ** The debug switch                                                   *)
(* ===================================================================== *)

Lemma towlower_0 (c : ascii) : towlower c = 0 -> c = "000"%char.
Proof.
  unfold towlower. intros H.
  assert (Hn : nat_of_ascii c = 0%nat).
  { destruct ((65 <=? Z.of_nat (nat_of_ascii c)) && (Z.of_nat (nat_of_ascii c) <=? 90));
      lia. }
  rewrite <- (ascii_nat_embedding c), Hn. reflexivity.
Qed.

(** On C strings [_wcsicmp] answers 0 exactly for strings that agree
    once their letters are folded. *)
Lemma _wcsicmp_0 (a : string) :
  forall b, c_string a -> c_string b ->
    (_wcsicmp a b = 0 <-> fold_case a = fold_case b).
Proof.
  unfold c_string, fold_case.
  induction a as [|ca a IH]; intros [|cb b] Ha Hb; cbn [_wcsicmp list_ascii_of_string map].
  - tauto.
  - apply Forall_cons in Hb as (Hcb & _).
    split; [|discriminate]. intros H. exfalso. apply Hcb, towlower_0. lia.
  - apply Forall_cons in Ha as (Hca & _).
    split; [|discriminate]. intros H. exfalso. now apply Hca, towlower_0.
  - apply Forall_cons in Ha as (_ & Ha). apply Forall_cons in Hb as (_ & Hb).
    destruct (Z.eqb_spec (towlower ca) (towlower cb)) as [Heq|Hne].
    + rewrite (IH b Ha Hb), Heq. split; [intros ->; reflexivity | now intros [= ?]].
    + split; [lia | intros [= ? _]; contradiction].
Qed.

Lemma scan_arg_debug (a : string) (s : Service) :
  c_string a ->
  (fDebugMode_ (scan_arg a s) = true <-> fDebugMode_ s = true \/ debug_switch a).
Proof.
  intros Ha. unfold scan_arg, debug_switch.
  destruct a as [|c rest].
  - split; [auto | intros [?|(c & rest & H & _)]; [assumption | discriminate]].
  - assert (Hrest : c_string rest).
    { unfold c_string in *. cbn [list_ascii_of_string] in Ha.
      now apply Forall_cons in Ha as (_ & Ha). }
    assert (Hword : c_string "debug").
    { unfold c_string. cbn. repeat constructor; discriminate. }
    pose proof (_wcsicmp_0 rest "debug" Hrest Hword) as Hcmp.
    destruct (Ascii.eqb_spec c "/"%char) as [->|Hslash];
      [|destruct (Ascii.eqb_spec c "-"%char) as [->|Hdash]]; cbn [orb].
    + destruct (Z.eqb_spec (_wcsicmp rest "debug") 0) as [H0|H0].
      * split; [|reflexivity]. intros _. right.
        exists "/"%char, rest. split; [reflexivity|]. split; [now left | now apply Hcmp].
      * split; [auto|]. intros [?|(c & r & [= <- <-] & _ & Hf)]; [assumption|].
        now apply Hcmp in Hf.
    + destruct (Z.eqb_spec (_wcsicmp rest "debug") 0) as [H0|H0].
      * split; [|reflexivity]. intros _. right.
        exists "-"%char, rest. split; [reflexivity|]. split; [now right | now apply Hcmp].
      * split; [auto|]. intros [?|(c & r & [= <- <-] & _ & Hf)]; [assumption|].
        now apply Hcmp in Hf.
    + split; [auto|].
      intros [?|(c' & r & [= <- <-] & [?|?] & _)]; [assumption | contradiction..].
Qed.

(** X21 -- [start] runs in debug mode exactly when some argument of the
    command line, the program name included, is a slash or a dash
    followed by the word "debug" in any mix of upper and lower case (or
    when the flag was already set); no other argument has any effect,
    and no argument switches the mode off. *)
Theorem debug_switch_recognised (h : Host) (s : Service) :
  Forall c_string (argv h) ->
  (debug_requested h s = true <->
     fDebugMode_ s = true \/ Exists debug_switch (argv h)).
Proof.
  unfold debug_requested. generalize (argv h) as args. clear h.
  intros args Hargs. revert s.
  induction Hargs as [|a args Ha _ IH]; intros s; cbn [fold_left].
  - split; [auto | intros [?|H]; [assumption | inversion H]].
  - rewrite IH, (scan_arg_debug a s Ha), Exists_cons. tauto.
Qed.

Lemma debug_switch_recognised_witness :
  debug_requested {| argv := ["demo.exe"; "-DeBuG"]; dispatcher := None;
                     hRegistered := 7 |} demo = true.
Proof.
  apply (debug_switch_recognised
           {| argv := ["demo.exe"; "-DeBuG"]; dispatcher := None; hRegistered := 7 |}
           demo).
  - repeat constructor; unfold c_string; cbn; repeat constructor; discriminate.
  - right. right. left. exists "-"%char, "DeBuG". repeat split. now right.
Defined.
